(** * Synthetic streaming for OpenAI-format chat completions

    A shallow embedding of [src/providers/openai/chatComplete.ts]:
    [OpenAIChatCompleteResponseTransform] (the non-streaming passthrough),
    [OpenAIChatCompleteJSONToStreamResponseTransform] (the generator that
    turns one complete response into the list of [text/event-stream] chunks)
    and [OpenAIChatCompleteConfig] (the table of request parameters).

    JavaScript strings are sequences of code units; they are modelled by
    [string], one [ascii] per code unit: [length] and [slice] only count and
    copy units, so the width of a unit plays no role in the code modelled
    here.  JavaScript numbers are doubles.  Those the code computes with
    (token counts, the HTTP status, the clock) hold integers and are
    modelled by [Z], with the rounding of a double where the code adds two
    of them; a number that is not an integer is the value [Real], given by
    the decimal JavaScript writes for it. *)

From Stdlib Require Import ZArith List String Ascii Bool Lia Arith PeanoNat.
From Stdlib Require Import DecimalString Sorted.
From Equations Require Import Equations.
Import ListNotations.

Set Warnings "-register-all".

Open Scope string_scope.
Open Scope list_scope.
Open Scope nat_scope.

(** ** JavaScript values, as far as the chunk objects need them *)

Module JS.

Inductive value : Type :=
| Undefined
| Null
| Bool (b : bool)
| Number (z : Z)
| Real (d : Decimal.decimal)
| Str (s : string)
| Array (elems : list value)
| Object (props : list (string * value)).

(** The own properties of an object, in insertion order. *)
Definition props := list (string * value).

Definition keys (o : props) : list string := map fst o.

(** [k in o] *)
Fixpoint has (k : string) (o : props) : bool :=
  match o with
  | [] => false
  | (k', _) :: o' => if String.eqb k k' then true else has k o'
  end.

(** [o[k]], [undefined] when [o] has no such property. *)
Fixpoint get (k : string) (o : props) : value :=
  match o with
  | [] => Undefined
  | (k', v) :: o' => if String.eqb k k' then v else get k o'
  end.

(** [o[k] = v]: an existing property keeps its place, a new one goes last. *)
Fixpoint set (k : string) (v : value) (o : props) : props :=
  match o with
  | [] => [(k, v)]
  | (k', v') :: o' =>
      if String.eqb k k' then (k', v) :: o' else (k', v') :: set k v o'
  end.

(** The members of an object literal: [k: v] and [...o]. *)
Inductive member : Type :=
| Field (k : string) (v : value)
| Spread (o : props).

Definition add_member (acc : props) (m : member) : props :=
  match m with
  | Field k v => set k v acc
  | Spread o => fold_left (fun a kv => set (fst kv) (snd kv) a) o acc
  end.

(** [{ m1, m2, ... }], evaluated left to right. *)
Definition object_literal (ms : list member) : props :=
  fold_left add_member ms [].

(** [...(c && { members })]: spreading a falsy primitive adds nothing. *)
Definition SpreadIf (c : bool) (o : props) : member :=
  Spread (if c then o else []).

(** [v.k] on a value; [undefined] when [v] is not an object.  (The code only
    ever reads properties of objects it has built itself.) *)
Definition field (k : string) (v : value) : value :=
  match v with
  | Object o => get k o
  | _ => Undefined
  end.

(** [v[i]] on an array value. *)
Definition item (i : nat) (v : value) : value :=
  match v with
  | Array l => nth i l Undefined
  | _ => Undefined
  end.

(** Truthiness of the optional inputs the code tests with [&&], [||], [if]. *)
Definition truthy_string (s : option string) : bool :=
  match s with
  | Some (String _ _) => true
  | _ => false
  end.

Definition truthy_number (n : option Z) : bool :=
  match n with
  | Some z => negb (Z.eqb z 0)
  | None => false
  end.

Definition truthy_object {A : Type} (o : option A) : bool :=
  match o with
  | Some _ => true
  | None => false
  end.

(** [Number.isInteger(v)]: [v] is a number and holds an integer. *)
Definition Number_isInteger (v : value) : bool :=
  match v with
  | Number _ => true
  | _ => false
  end.

(** The double nearest to the integer [z], ties to the even mantissa: the
    53 leading bits of [z], rounded.  (As long as the result is below
    [2^1024], where a double overflows.) *)
Definition double_round (z : Z) : Z :=
  let a := Z.abs z in
  if (a <? 2 ^ 53)%Z then z
  else
    let u := (2 ^ (Z.log2 a - 52))%Z in
    let q := (a / u)%Z in
    let r := (a mod u)%Z in
    let q' :=
      if (2 * r <? u)%Z then q
      else if (u <? 2 * r)%Z then (q + 1)%Z
      else if Z.even q then q else (q + 1)%Z in
    (Z.sgn z * (q' * u))%Z.

(** An optional input as a value: an absent one is [undefined]. *)
Definition of_string (s : option string) : value :=
  match s with
  | Some s => Str s
  | None => Undefined
  end.

Definition of_number (n : option Z) : value :=
  match n with
  | Some z => Number z
  | None => Undefined
  end.

(** [s.slice(start, end)] for [0 <= start <= end]: the units from [start] up
    to, not including, [end], cut at the end of [s]. *)
Definition slice (s : string) (start stop : nat) : string :=
  substring start (stop - start) s.

(** *** [JSON.stringify] *)

Definition hex_digit (n : nat) : ascii :=
  ascii_of_nat (if (n <? 10)%nat then (48 + n)%nat else (87 + n)%nat).

Definition quote_unit (c : ascii) : string :=
  let n := nat_of_ascii c in
  if (n =? 8)%nat then "\b"
  else if (n =? 9)%nat then "\t"
  else if (n =? 10)%nat then "\n"
  else if (n =? 12)%nat then "\f"
  else if (n =? 13)%nat then "\r"
  else if (n =? 34)%nat then String (ascii_of_nat 92) (String c EmptyString)
  else if (n =? 92)%nat then "\\"
  else if (n <? 32)%nat then
    ("\u00" ++ String (hex_digit (n / 16)%nat)
                 (String (hex_digit (n mod 16)%nat) EmptyString))%string
  else String c EmptyString.

Fixpoint quote_units (s : string) : string :=
  match s with
  | EmptyString => EmptyString
  | String c s' => (quote_unit c ++ quote_units s')%string
  end.

Definition dquote : string := String (ascii_of_nat 34) EmptyString.

Definition quote (s : string) : string :=
  (dquote ++ quote_units s ++ dquote)%string.

(** The decimal digits of an integer, as [JSON.stringify] writes a number
    below [10^21] in absolute value. *)
Definition number_to_string (z : Z) : string :=
  NilZero.string_of_int (Z.to_int z).

(** The decimal of a number that is not an integer: [1.5], [2.5e-7],
    [1.2e+21]. *)
Definition real_to_string (d : Decimal.decimal) : string :=
  match d with
  | Decimal.Decimal i f =>
      (NilZero.string_of_int i ++ "." ++ NilEmpty.string_of_uint f)%string
  | Decimal.DecimalExp i f e =>
      (NilZero.string_of_int i
       ++ match f with
          | Decimal.Nil => EmptyString
          | _ => "." ++ NilEmpty.string_of_uint f
          end
       ++ "e"
       ++ match e with
          | Decimal.Pos u => "+" ++ NilZero.string_of_uint u
          | Decimal.Neg u => "-" ++ NilZero.string_of_uint u
          end)%string
  end.

Fixpoint join (sep : string) (l : list string) : string :=
  match l with
  | [] => EmptyString
  | [x] => x
  | x :: l' => (x ++ sep ++ join sep l')%string
  end.

(** The serialisation of a value, [None] where [JSON.stringify] gives
    [undefined].  A property whose value is [undefined] is left out of an
    object; an [undefined] element of an array is written [null]. *)
Fixpoint serialize (v : value) : option string :=
  match v with
  | Undefined => None
  | Null => Some "null"
  | Bool true => Some "true"
  | Bool false => Some "false"
  | Number z => Some (number_to_string z)
  | Real d => Some (real_to_string d)
  | Str s => Some (quote s)
  | Array l =>
      let elems :=
        (fix go (l : list value) : list string :=
           match l with
           | [] => []
           | x :: l' =>
               match serialize x with
               | Some t => t
               | None => "null"
               end :: go l'
           end) l in
      Some ("[" ++ join "," elems ++ "]")%string
  | Object o =>
      let members :=
        (fix go (o : list (string * value)) : list string :=
           match o with
           | [] => []
           | (k, x) :: o' =>
               match serialize x with
               | Some t => (quote k ++ ":" ++ t)%string :: go o'
               | None => go o'
               end
           end) o in
      Some ("{" ++ join "," members ++ "}")%string
  end.

(** [`${JSON.stringify(v)}`] *)
Definition JSON_stringify (v : value) : string :=
  match serialize v with
  | Some t => t
  | None => "undefined"
  end.

End JS.

Import JS.


(** ** Loops of the source *)

(** [arr.push(x)] *)
Definition push {A : Type} (arr : list A) (x : A) : list A := arr ++ [x].

(** [for (let i = i0; i < s.length; i += 500) acc = body(acc, s.slice(i, i + 500))]:
    the slicing loop the source writes four times, with the state [acc] it
    updates.  It ends because [s.length - i] decreases. *)
Equations? for_each_slice {A : Type} (s : string) (body : A -> string -> A)
    (i : nat) (acc : A) : A by wf (String.length s - i) lt :=
  for_each_slice s body i acc with lt_dec i (String.length s) := {
    | left _ =>
        for_each_slice s body (i + 500) (body acc (slice s i (i + 500)));
    | right _ => acc }.
Proof. lia. Qed.

(** [l.entries()] *)
Definition entries {A : Type} (l : list A) : list (nat * A) :=
  combine (seq 0 (List.length l)) l.

(** [for (const [i, x] of l.entries()) acc = body(acc, i, x)] *)
Definition for_entries {A B : Type} (l : list A) (body : B -> nat -> A -> B)
    (acc : B) : B :=
  fold_left (fun acc ix => body acc (fst ix) (snd ix)) (entries l) acc.

(** ** The input: a complete chat-completion response

    The interfaces are declared outside this file ([../types],
    [../../types/requestBody]); the records below have the fields the two
    transforms read, optional where the code tests for their presence. *)

Module ContentBlock.
Record t : Type := mk {
  type : option string;
  text : option string;
  thinking : option string;
  signature : option string;
  data : option string }.
End ContentBlock.

Module ToolCall.
Record func : Type := mk_func {
  name : string;
  arguments : string }.
Record t : Type := mk {
  id : string;
  function : func }.
End ToolCall.

Module Message.
(** [content] is a string, or the list of content parts of a multimodal
    message. *)
Inductive content_t : Type :=
| Text (s : string)
| Parts (l : list value).
Record t : Type := mk {
  content : option content_t;
  content_blocks : option (list ContentBlock.t);
  tool_calls : option (list ToolCall.t) }.
End Message.

Module Choice.
Record t : Type := mk {
  message : option Message.t;
  finish_reason : option string;
  groundingMetadata : option props }.
End Choice.

(** The two cache counts are kept as the values the response holds, an
    absent one as [undefined]: the code tests them with [Number.isInteger]
    and copies them as they are. *)
Module Usage.
Record t : Type := mk {
  prompt_tokens : option Z;
  completion_tokens : option Z;
  cache_read_input_tokens : value;
  cache_creation_input_tokens : value;
  num_search_queries : option Z }.
(** [{}] *)
Definition empty : t := mk None None Undefined Undefined None.
End Usage.

Module Response.
Record t : Type := mk {
  id : string;
  model : option string;
  system_fingerprint : option string;
  choices : list Choice.t;
  usage : option Usage.t;
  citations : option (list string) }.
End Response.

(** The value of an optional string where the code has found it truthy. *)
Definition string_of (s : option string) : string :=
  match s with
  | Some s => s
  | None => EmptyString
  end.

(** [a + b] on two counts: the sum of two doubles is the double nearest to
    their sum. *)
Definition plus_numbers (a b : option Z) : option Z :=
  match a, b with
  | Some x, Some y => Some (double_round (x + y))
  | _, _ => None
  end.

(** [{ ... }] as a value *)
Definition obj (ms : list member) : value := Object (object_literal ms).

Definition index_value (i : nat) : value := Number (Z.of_nat i).

(** One element of [streamChunkArray]: [Data o] stands for the string
    [`data: ${JSON.stringify(o)}\n\n`] and [DONE] for [`data: [DONE]\n\n`];
    [render] gives the string. *)
Inductive chunk : Type :=
| Data (o : props)
| DONE.

Definition newline : string := String (ascii_of_nat 10) EmptyString.

(** [`data: [DONE]\n\n`] *)
Definition sentinel : string := ("data: [DONE]" ++ newline ++ newline)%string.

Definition render (c : chunk) : string :=
  match c with
  | Data o => ("data: " ++ JSON_stringify (Object o) ++ newline ++ newline)%string
  | DONE => sentinel
  end.

(** ** The two transforms *)

Section Transforms.

(** The provider identifiers of [../../globals] and the error transform of
    [./utils], all declared outside this file. *)
Variable ANTHROPIC : string.
Variable OPEN_AI : string.
Variable OpenAIErrorResponseTransform : props -> string -> props.

(** *** [OpenAIChatCompleteResponseTransform] *)

(** What the passthrough does with a response: hands it to the error
    transform, or returns it. *)
Inductive passthrough : Type :=
| Delegate (response : props) (provider : string)
| Return (response : props).

Definition OpenAIChatCompleteResponseTransform_action
    (response : props) (responseStatus : Z) : passthrough :=
  if negb (Z.eqb responseStatus 200) && has "error" response
  then Delegate response OPEN_AI
  else Return response.

Definition run_passthrough (a : passthrough) : props :=
  match a with
  | Delegate response provider => OpenAIErrorResponseTransform response provider
  | Return response => response
  end.

Definition OpenAIChatCompleteResponseTransform
    (response : props) (responseStatus : Z) : props :=
  run_passthrough
    (OpenAIChatCompleteResponseTransform_action response responseStatus).

(** *** [OpenAIChatCompleteJSONToStreamResponseTransform] *)

(** [response.usage || {}], line 161. *)
Definition usage_or_empty (response : Response.t) : Usage.t :=
  match Response.usage response with
  | Some u => u
  | None => Usage.empty
  end.

(** [total_tokens], lines 163-165. *)
Definition total_tokens_of (prompt_tokens completion_tokens : option Z)
    : option Z :=
  if truthy_number prompt_tokens && truthy_number completion_tokens
  then plus_numbers prompt_tokens completion_tokens
  else None.

(** [shouldSendCacheUsage], lines 167-170. *)
Definition shouldSendCacheUsage (provider : string)
    (cache_read_input_tokens cache_creation_input_tokens : value) : bool :=
  String.eqb provider ANTHROPIC
  && (Number_isInteger cache_read_input_tokens
      || Number_isInteger cache_creation_input_tokens).

(** The [usage] object of the template, lines 179-188. *)
Definition usage_object (provider : string) (usage : Usage.t) : props :=
  let prompt_tokens := Usage.prompt_tokens usage in
  let completion_tokens := Usage.completion_tokens usage in
  let cache_read_input_tokens := Usage.cache_read_input_tokens usage in
  let cache_creation_input_tokens := Usage.cache_creation_input_tokens usage in
  let num_search_queries := Usage.num_search_queries usage in
  let total_tokens := total_tokens_of prompt_tokens completion_tokens in
  object_literal [
    SpreadIf (truthy_number completion_tokens)
      (object_literal [Field "completion_tokens" (of_number completion_tokens)]);
    SpreadIf (truthy_number prompt_tokens)
      (object_literal [Field "prompt_tokens" (of_number prompt_tokens)]);
    SpreadIf (truthy_number total_tokens)
      (object_literal [Field "total_tokens" (of_number total_tokens)]);
    SpreadIf (shouldSendCacheUsage provider cache_read_input_tokens
                cache_creation_input_tokens)
      (object_literal [
         Field "cache_read_input_tokens" cache_read_input_tokens;
         Field "cache_creation_input_tokens" cache_creation_input_tokens]);
    SpreadIf (truthy_number num_search_queries)
      (object_literal [Field "num_search_queries" (of_number num_search_queries)])
  ].

(** [streamChunkTemplate], lines 172-190; [now] is what [Date.now()] returns
    at line 175. *)
Definition streamChunkTemplate (now : Z) (response : Response.t)
    (provider : string) : props :=
  let usage := usage_or_empty response in
  object_literal [
    Field "id" (Str (Response.id response));
    Field "object" (Str "chat.completion.chunk");
    Field "created" (Number now);
    Field "model"
      (if truthy_string (Response.model response)
       then of_string (Response.model response) else Str EmptyString);
    Field "system_fingerprint"
      (if truthy_string (Response.system_fingerprint response)
       then of_string (Response.system_fingerprint response) else Null);
    Field "provider" (Str provider);
    Field "usage" (Object (usage_object provider usage));
    SpreadIf (truthy_object (Response.citations response))
      (object_literal [
         Field "citations"
           (match Response.citations response with
            | Some l => Array (map Str l)
            | None => Undefined
            end)])
  ].

(** The object of every pushed chunk: [{...streamChunkTemplate, choices: [c]}]. *)
Definition chunk_of (template : props) (choice : list member) : chunk :=
  Data (object_literal [Spread template; Field "choices" (Array [obj choice])]).

(** The content-block delta [[{index, delta: {key: payload}}]]. *)
Definition content_block_delta (contentBlockIndex : nat) (key : string)
    (payload : value) : value :=
  Array [obj [Field "index" (index_value contentBlockIndex);
              Field "delta" (obj [Field key payload])]].

(** Lines 205-226. *)
Definition text_chunk (template : props) (index contentBlockIndex : nat)
    (content : string) : chunk :=
  chunk_of template [
    Field "index" (index_value index);
    Field "delta" (obj [
      Field "role" (Str "assistant");
      Field "content" (Str content);
      Field "content_blocks"
        (content_block_delta contentBlockIndex "text" (Str content))])].

(** Lines 231-251. *)
Definition thinking_chunk (template : props) (index contentBlockIndex : nat)
    (thinking : string) : chunk :=
  chunk_of template [
    Field "index" (index_value index);
    Field "delta" (obj [
      Field "role" (Str "assistant");
      Field "content_blocks"
        (content_block_delta contentBlockIndex "thinking" (Str thinking))])].

(** Lines 253-273. *)
Definition signature_chunk (template : props) (index contentBlockIndex : nat)
    (signature : option string) : chunk :=
  chunk_of template [
    Field "index" (index_value index);
    Field "delta" (obj [
      Field "role" (Str "assistant");
      Field "content_blocks"
        (content_block_delta contentBlockIndex "signature"
           (of_string signature))])].

(** Lines 277-297. *)
Definition data_chunk (template : props) (index contentBlockIndex : nat)
    (data : string) : chunk :=
  chunk_of template [
    Field "index" (index_value index);
    Field "delta" (obj [
      Field "role" (Str "assistant");
      Field "content_blocks"
        (content_block_delta contentBlockIndex "data" (Str data))])].

(** [{...contentBlock}] followed by [delete contentBlockDelta.type],
    lines 198-201. *)
Definition contentBlockDelta_of (contentBlock : ContentBlock.t)
    : ContentBlock.t :=
  ContentBlock.mk None
    (ContentBlock.text contentBlock) (ContentBlock.thinking contentBlock)
    (ContentBlock.signature contentBlock) (ContentBlock.data contentBlock).

(** The body of the loop over [content_blocks], lines 198-299. *)
Definition content_block_step (template : props) (index : nat)
    (streamChunkArray : list chunk) (contentBlockIndex : nat)
    (contentBlock : ContentBlock.t) : list chunk :=
  let contentBlockDelta := contentBlockDelta_of contentBlock in
  if truthy_string (ContentBlock.text contentBlockDelta) then
    for_each_slice (string_of (ContentBlock.text contentBlockDelta))
      (fun arr content =>
         push arr (text_chunk template index contentBlockIndex content))
      0 streamChunkArray
  else if truthy_string (ContentBlock.thinking contentBlockDelta) then
    let arr :=
      for_each_slice (string_of (ContentBlock.thinking contentBlockDelta))
        (fun arr thinking =>
           push arr (thinking_chunk template index contentBlockIndex thinking))
        0 streamChunkArray in
    push arr
      (signature_chunk template index contentBlockIndex
         (ContentBlock.signature contentBlockDelta))
  else if truthy_string (ContentBlock.data contentBlockDelta) then
    for_each_slice (string_of (ContentBlock.data contentBlockDelta))
      (fun arr data =>
         push arr (data_chunk template index contentBlockIndex data))
      0 streamChunkArray
  else streamChunkArray.

(** Lines 193-301. *)
Definition content_blocks_step (template : props) (index : nat)
    (choice : Choice.t) (streamChunkArray : list chunk) : list chunk :=
  match Choice.message choice with
  | Some message =>
      match Message.content_blocks message with
      | Some content_blocks =>
          for_entries content_blocks (content_block_step template index)
            streamChunkArray
      | None => streamChunkArray
      end
  | None => streamChunkArray
  end.

(** [toolCallNameChunk], lines 312-320. *)
Definition toolCallNameChunk (toolCallIndex : nat) (toolCall : ToolCall.t)
    : value :=
  obj [
    Field "index" (index_value toolCallIndex);
    Field "id" (Str (ToolCall.id toolCall));
    Field "type" (Str "function");
    Field "function" (obj [
      Field "name" (Str (ToolCall.name (ToolCall.function toolCall)));
      Field "arguments" (Str EmptyString)])].

(** [toolCallArgumentChunk], lines 322-327. *)
Definition toolCallArgumentChunk (toolCallIndex : nat) (toolCall : ToolCall.t)
    : value :=
  obj [
    Field "index" (index_value toolCallIndex);
    Field "function" (obj [
      Field "arguments"
        (Str (ToolCall.arguments (ToolCall.function toolCall)))])].

(** Lines 329-343. *)
Definition tool_name_chunk (template : props) (index toolCallIndex : nat)
    (toolCall : ToolCall.t) : chunk :=
  chunk_of template [
    Field "index" (index_value index);
    Field "delta" (obj [
      Field "role" (Str "assistant");
      Field "content" Null;
      Field "tool_calls" (Array [toolCallNameChunk toolCallIndex toolCall])])].

(** Lines 345-358. *)
Definition tool_arguments_chunk (template : props) (index toolCallIndex : nat)
    (toolCall : ToolCall.t) : chunk :=
  chunk_of template [
    Field "index" (index_value index);
    Field "delta" (obj [
      Field "role" (Str "assistant");
      Field "tool_calls"
        (Array [toolCallArgumentChunk toolCallIndex toolCall])])].

(** The body of the loop over [tool_calls], lines 312-358. *)
Definition tool_call_step (template : props) (index : nat)
    (streamChunkArray : list chunk) (toolCallIndex : nat)
    (toolCall : ToolCall.t) : list chunk :=
  let arr :=
    push streamChunkArray
      (tool_name_chunk template index toolCallIndex toolCall) in
  push arr (tool_arguments_chunk template index toolCallIndex toolCall).

(** Lines 303-360. *)
Definition tool_calls_step (template : props) (index : nat)
    (choice : Choice.t) (streamChunkArray : list chunk) : list chunk :=
  match Choice.message choice with
  | Some message =>
      match Message.tool_calls message with
      | Some tool_calls =>
          if negb (List.length tool_calls =? 0)%nat
          then for_entries tool_calls (tool_call_step template index)
                 streamChunkArray
          else streamChunkArray
      | None => streamChunkArray
      end
  | None => streamChunkArray
  end.

(** Lines 373-389. *)
Definition content_chunk (template : props) (index : nat) (choice : Choice.t)
    (word : string) : chunk :=
  chunk_of template [
    Field "index" (index_value index);
    Field "delta" (obj [
      Field "role" (Str "assistant");
      Field "content" (Str word)]);
    SpreadIf (truthy_object (Choice.groundingMetadata choice))
      (object_literal [
         Field "groundingMetadata"
           (match Choice.groundingMetadata choice with
            | Some g => Object g
            | None => Undefined
            end)])].

(** [inidividualWords], lines 368-371. *)
Definition inidividualWords (content : string) : list string :=
  for_each_slice content (fun words word => push words word) 0 [].

(** Lines 362-391. *)
Definition content_step (template : props) (index : nat)
    (choice : Choice.t) (streamChunkArray : list chunk) : list chunk :=
  match Choice.message choice with
  | Some message =>
      match Message.content message, Message.content_blocks message with
      | Some (Message.Text content), None =>
          if truthy_string (Some content) then
            fold_left
              (fun arr word => push arr (content_chunk template index choice word))
              (inidividualWords content) streamChunkArray
          else streamChunkArray
      | _, _ => streamChunkArray
      end
  | None => streamChunkArray
  end.

(** Lines 393-404. *)
Definition finish_chunk (template : props) (index : nat) (choice : Choice.t)
    : chunk :=
  chunk_of template [
    Field "index" (index_value index);
    Field "delta" (obj []);
    Field "finish_reason" (of_string (Choice.finish_reason choice))].

(** The body of the loop over [choices], lines 193-404. *)
Definition choice_step (template : props) (streamChunkArray : list chunk)
    (index : nat) (choice : Choice.t) : list chunk :=
  let arr := content_blocks_step template index choice streamChunkArray in
  let arr := tool_calls_step template index choice arr in
  let arr := content_step template index choice arr in
  push arr (finish_chunk template index choice).

(** The array the transform has built when it returns, lines 152-408. *)
Definition streamChunkArray_of (now : Z) (response : Response.t)
    (provider : string) : list chunk :=
  let streamChunkTemplate := streamChunkTemplate now response provider in
  let arr :=
    for_entries (Response.choices response) (choice_step streamChunkTemplate)
      [] in
  push arr DONE.

Definition OpenAIChatCompleteJSONToStreamResponseTransform (now : Z)
    (response : Response.t) (provider : string) : list string :=
  map render (streamChunkArray_of now response provider).

End Transforms.

(** ** Reading the chunks back

    What a consumer of the stream reads off a chunk object: the single
    element of [choices], its [index] and [delta], and inside the delta the
    single element of [content_blocks] or of [tool_calls]. *)

Definition has_field (k : string) (v : value) : bool :=
  match v with
  | Object o => has k o
  | _ => false
  end.

Definition string_of_value (v : value) : option string :=
  match v with
  | Str s => Some s
  | _ => None
  end.

Definition nat_of_value (v : value) : option nat :=
  match v with
  | Number z => if (0 <=? z)%Z then Some (Z.to_nat z) else None
  | _ => None
  end.

Definition chunk_choice (c : chunk) : value :=
  match c with
  | Data o => item 0 (get "choices" o)
  | DONE => Undefined
  end.

Definition delta_of (c : chunk) : value := field "delta" (chunk_choice c).

Definition choice_index (c : chunk) : option nat :=
  nat_of_value (field "index" (chunk_choice c)).

Definition content_block_of (c : chunk) : value :=
  item 0 (field "content_blocks" (delta_of c)).

Definition block_index (c : chunk) : option nat :=
  nat_of_value (field "index" (content_block_of c)).

Definition tool_call_of (c : chunk) : value :=
  item 0 (field "tool_calls" (delta_of c)).

Definition tool_call_index (c : chunk) : option nat :=
  nat_of_value (field "index" (tool_call_of c)).

(** The slice a content-block chunk carries under [key] ([text], [thinking]
    or [data]), if it carries one. *)
Definition block_payload (key : string) (c : chunk) : option string :=
  string_of_value (field key (field "delta" (content_block_of c))).

(** The slice a flat-content chunk carries in [delta.content]: the chunk has
    no [content_blocks]. *)
Definition content_payload (c : chunk) : option string :=
  if has_field "content_blocks" (delta_of c) then None
  else string_of_value (field "content" (delta_of c)).

Definition payloads (payload : chunk -> option string) (l : list chunk)
    : list string :=
  flat_map (fun c => match payload c with Some s => [s] | None => [] end) l.

Definition concat_strings (l : list string) : string :=
  fold_right String.append EmptyString l.

Definition at_index (o : option nat) (i : nat) : bool :=
  match o with
  | Some j => Nat.eqb j i
  | None => false
  end.

(** The chunks of choice [i]; of its content block [j]; of its tool call [k]. *)
Definition of_choice (i : nat) (c : chunk) : bool :=
  at_index (choice_index c) i.

Definition of_block (i j : nat) (c : chunk) : bool :=
  of_choice i c && at_index (block_index c) j.

Definition of_tool_call (i k : nat) (c : chunk) : bool :=
  of_choice i c && at_index (tool_call_index c) k.

Definition is_content_block_chunk (c : chunk) : bool :=
  has_field "content_blocks" (delta_of c).

Definition is_tool_call_chunk (c : chunk) : bool :=
  has_field "tool_calls" (delta_of c).

Definition carries_signature (c : chunk) : bool :=
  has_field "signature" (field "delta" (content_block_of c)).

Definition is_finish_chunk (c : chunk) : bool :=
  match delta_of c with
  | Object [] => true
  | _ => false
  end.

(** [s] without its first [n] units. *)
Fixpoint drop (n : nat) (s : string) : string :=
  match n, s with
  | 0, _ => s
  | S n', EmptyString => EmptyString
  | S n', String _ s' => drop n' s'
  end.

(** The slices the loop cuts from index [i] on, in order. *)
Definition slices (s : string) (i : nat) : list string :=
  for_each_slice s (fun words word => push words word) i [].

(** [ceil(n / 500)] *)
Definition ceil_div_500 (n : nat) : nat := (n + 499) / 500.

(** The envelope of a chunk object: all its properties but [choices]. *)
Definition envelope (o : props) : props :=
  filter (fun kv => negb (String.eqb (fst kv) "choices")) o.

(** The chunks one content block, one tool call and one choice add to an
    empty array: the steps of the source, run on [[]]. *)
Definition block_chunks (template : props) (index contentBlockIndex : nat)
    (contentBlock : ContentBlock.t) : list chunk :=
  content_block_step template index [] contentBlockIndex contentBlock.

Definition tool_call_chunks (template : props) (index toolCallIndex : nat)
    (toolCall : ToolCall.t) : list chunk :=
  tool_call_step template index [] toolCallIndex toolCall.

Definition choice_chunks (template : props) (index : nat) (choice : Choice.t)
    : list chunk :=
  choice_step template [] index choice.

Definition choice_block_chunks (template : props) (index : nat)
    (choice : Choice.t) : list chunk :=
  content_blocks_step template index choice [].

Definition choice_tool_chunks (template : props) (index : nat)
    (choice : Choice.t) : list chunk :=
  tool_calls_step template index choice [].

Definition choice_content_chunks (template : props) (index : nat)
    (choice : Choice.t) : list chunk :=
  content_step template index choice [].

(** What the chunks of a content block, of a tool call, of the flat content
    and the finish chunk show to the readers above. *)
Definition block_chunk_shape (i j : nat) (c : chunk) : Prop :=
  choice_index c = Some i /\ block_index c = Some j
  /\ tool_call_index c = None /\ is_content_block_chunk c = true
  /\ is_tool_call_chunk c = false /\ is_finish_chunk c = false
  /\ content_payload c = None.

Definition tool_chunk_shape (i k : nat) (c : chunk) : Prop :=
  choice_index c = Some i /\ block_index c = None
  /\ tool_call_index c = Some k /\ is_content_block_chunk c = false
  /\ is_tool_call_chunk c = true /\ is_finish_chunk c = false
  /\ content_payload c = None /\ forall key, block_payload key c = None.

Definition content_chunk_shape (i : nat) (c : chunk) : Prop :=
  choice_index c = Some i /\ block_index c = None
  /\ tool_call_index c = None /\ is_content_block_chunk c = false
  /\ is_tool_call_chunk c = false /\ is_finish_chunk c = false
  /\ forall key, block_payload key c = None.

Definition finish_chunk_shape (i : nat) (c : chunk) : Prop :=
  choice_index c = Some i /\ block_index c = None
  /\ tool_call_index c = None /\ is_content_block_chunk c = false
  /\ is_tool_call_chunk c = false /\ is_finish_chunk c = true
  /\ content_payload c = None /\ forall key, block_payload key c = None.

(** ** Sample responses *)

Module Sample.

Fixpoint repeat_string (n : nat) (s : string) : string :=
  match n with
  | 0 => EmptyString
  | S n' => (s ++ repeat_string n' s)%string
  end.

(** 1200 units. *)
Definition long_text : string := repeat_string 600 "AB".

Definition weather_call : ToolCall.t :=
  ToolCall.mk "call_1" (ToolCall.mk_func "get_weather" "{}").

(** A message of three content blocks and one tool call. *)
Definition blocks_choice : Choice.t :=
  Choice.mk
    (Some (Message.mk None
             (Some [ContentBlock.mk (Some "thinking") None (Some "hmm") None None;
                    ContentBlock.mk (Some "text") (Some long_text) None None None;
                    ContentBlock.mk (Some "data") None None None (Some "AAAA")])
             (Some [weather_call])))
    (Some "tool_calls") None.

(** A message with flat content only, as in the example of the
    specification. *)
Definition flat_choice : Choice.t :=
  Choice.mk (Some (Message.mk (Some (Message.Text long_text)) None None))
    (Some "stop") None.

Definition flat_response : Response.t :=
  Response.mk "chatcmpl-6" (Some "gpt-4o") None [flat_choice] None None.

(** A message whose text block and whose flat content are empty strings. *)
Definition empty_text_choice : Choice.t :=
  Choice.mk
    (Some (Message.mk None
             (Some [ContentBlock.mk (Some "text") (Some EmptyString) None None None])
             None))
    (Some "stop") None.

Definition empty_content_choice : Choice.t :=
  Choice.mk (Some (Message.mk (Some (Message.Text EmptyString)) None None))
    (Some "stop") None.

Definition usage : Usage.t :=
  Usage.mk (Some 12%Z) (Some 30%Z) (Number 0) Undefined None.

Definition response : Response.t :=
  Response.mk "chatcmpl-1" (Some "gpt-4o") None
    [blocks_choice; flat_choice] (Some usage) None.

Definition empty_fields_response : Response.t :=
  Response.mk "chatcmpl-2" (Some "gpt-4o") None
    [empty_text_choice; empty_content_choice] None None.

(** An error body, and a stand-in for the error transform of [./utils]. *)
Definition error_body : props :=
  [("error", Object [("message", Str "Incorrect API key provided")])].

Definition error_transform (response : props) (provider : string) : props :=
  [("error", get "error" response); ("provider", Str provider)].

(** A message with nothing in it. *)
Definition bare_choice : Choice.t :=
  Choice.mk (Some (Message.mk None None None)) (Some "stop") None.

Definition bare_response : Response.t :=
  Response.mk "chatcmpl-5" (Some "gpt-4o") None [bare_choice] None None.

Definition no_choices_response : Response.t :=
  Response.mk "chatcmpl-0" None None [] None None.

(** A thinking block whose [thinking] is the empty string. *)
Definition empty_thinking_choice : Choice.t :=
  Choice.mk
    (Some (Message.mk None
             (Some [ContentBlock.mk (Some "thinking") None (Some EmptyString)
                      (Some "sig") None])
             None))
    (Some "stop") None.

Definition empty_thinking_response : Response.t :=
  Response.mk "chatcmpl-4" (Some "claude") None
    [empty_thinking_choice] None None.

(** A usage whose prompt count is 0. *)
Definition zero_prompt_usage : Usage.t :=
  Usage.mk (Some 0%Z) (Some 7%Z) Undefined Undefined None.

Definition zero_prompt_response : Response.t :=
  Response.mk "chatcmpl-3" (Some "gpt-4o") None
    [empty_content_choice] (Some zero_prompt_usage) None.

End Sample.

(** ** Further readers and measures *)

(** The chunks the body of the loop over [choices] can push for choice [i]:
    one per [streamChunkArray.push] of lines 205-404. *)
Inductive chunk_form (t : props) (i : nat) (ch : Choice.t) : chunk -> Prop :=
| form_text j s : chunk_form t i ch (text_chunk t i j s)
| form_thinking j s : chunk_form t i ch (thinking_chunk t i j s)
| form_signature j sig : chunk_form t i ch (signature_chunk t i j sig)
| form_data j s : chunk_form t i ch (data_chunk t i j s)
| form_tool_name k tc : chunk_form t i ch (tool_name_chunk t i k tc)
| form_tool_arguments k tc : chunk_form t i ch (tool_arguments_chunk t i k tc)
| form_content w : chunk_form t i ch (content_chunk t i ch w)
| form_finish : chunk_form t i ch (finish_chunk t i ch).

(** [delta.content] of a chunk when it is a string, whatever else the delta
    has. *)
Definition top_content (c : chunk) : option string :=
  string_of_value (field "content" (delta_of c)).

(** The number of chunks of one content block and of one choice. *)
Definition block_chunk_count (b : ContentBlock.t) : nat :=
  if truthy_string (ContentBlock.text b) then
    ceil_div_500 (String.length (string_of (ContentBlock.text b)))
  else if truthy_string (ContentBlock.thinking b) then
    ceil_div_500 (String.length (string_of (ContentBlock.thinking b))) + 1
  else if truthy_string (ContentBlock.data b) then
    ceil_div_500 (String.length (string_of (ContentBlock.data b)))
  else 0.

Definition choice_chunk_count (ch : Choice.t) : nat :=
  match Choice.message ch with
  | Some m =>
      match Message.content_blocks m with
      | Some bs => list_sum (map block_chunk_count bs)
      | None =>
          match Message.content m with
          | Some (Message.Text s) => ceil_div_500 (String.length s)
          | _ => 0
          end
      end
      + match Message.tool_calls m with
        | Some tcs => 2 * List.length tcs
        | None => 0
        end
      + 1
  | None => 1
  end.

(** The response with other choices. *)
Definition with_choices (r : Response.t) (choices : list Choice.t)
    : Response.t :=
  Response.mk (Response.id r) (Response.model r)
    (Response.system_fingerprint r) choices (Response.usage r)
    (Response.citations r).

(** Indices read off a list of chunks never go down. *)
Definition index_ordered (idx : chunk -> option nat) (c d : chunk) : Prop :=
  forall i j, idx c = Some i -> idx d = Some j -> i <= j.

(** The string has a line feed in it. *)
Fixpoint contains_newline (s : string) : bool :=
  match s with
  | EmptyString => false
  | String c s' => Ascii.eqb c (ascii_of_nat 10) || contains_newline s'
  end.

(** ** Samples of edge cases *)

Module Edge.

Definition grounding : props := [("webSearchQueries", Array [Str "rocq"])].

(** A flat message with grounding metadata. *)
Definition grounded_choice : Choice.t :=
  Choice.mk (Some (Message.mk (Some (Message.Text "Paris")) None None))
    (Some "stop") (Some grounding).

Definition grounded_response : Response.t :=
  Response.mk "chatcmpl-7" (Some "gemini") None [grounded_choice] None None.

(** A block with a text, a thinking and a signature at once. *)
Definition mixed_block : ContentBlock.t :=
  ContentBlock.mk (Some "text") (Some "answer") (Some "reasoning")
    (Some "sig") None.

(** A message with that block and a string content. *)
Definition mixed_choice : Choice.t :=
  Choice.mk
    (Some (Message.mk (Some (Message.Text "answer")) (Some [mixed_block]) None))
    (Some "stop") None.

(** A message with a string content and an empty list of content blocks. *)
Definition shadowed_choice : Choice.t :=
  Choice.mk (Some (Message.mk (Some (Message.Text "answer")) (Some []) None))
    (Some "stop") None.

Definition mixed_response : Response.t :=
  Response.mk "chatcmpl-8" (Some "claude") None
    [mixed_choice; shadowed_choice] None None.

End Edge.

(** The [k]-th window of 500 units of [s], if [s] reaches it. *)
Definition slice_at (s : string) (k : nat) : option string :=
  if 500 * k <? String.length s then Some (substring (500 * k) 500 s)
  else None.

(** Induction on values, through the elements of arrays and the values of
    properties. *)
Section ValueInduction.
Variable P : value -> Prop.
Hypothesis P_Undefined : P Undefined.
Hypothesis P_Null : P Null.
Hypothesis P_Bool : forall b, P (Bool b).
Hypothesis P_Number : forall z, P (Number z).
Hypothesis P_Real : forall d, P (Real d).
Hypothesis P_Str : forall s, P (Str s).
Hypothesis P_Array : forall l, Forall P l -> P (Array l).
Hypothesis P_Object : forall o, Forall (fun kv => P (snd kv)) o -> P (Object o).

Fixpoint value_induction (v : value) : P v :=
  match v with
  | Undefined => P_Undefined
  | Null => P_Null
  | Bool b => P_Bool b
  | Number z => P_Number z
  | Real d => P_Real d
  | Str s => P_Str s
  | Array l =>
      P_Array l
        ((fix go (l : list value) : Forall P l :=
            match l with
            | [] => Forall_nil P
            | x :: l' => Forall_cons x (value_induction x) (go l')
            end) l)
  | Object o =>
      P_Object o
        ((fix go (o : list (string * value))
            : Forall (fun kv => P (snd kv)) o :=
            match o with
            | [] => Forall_nil _
            | kv :: o' =>
                Forall_cons (P := fun kv => P (snd kv)) kv
                  (value_induction (snd kv)) (go o')
            end) o)
  end.
End ValueInduction.

(** The elements of an array and the members of an object as
    [JSON.stringify] writes them. *)
Definition serialize_element (x : value) : string :=
  match serialize x with
  | Some t => t
  | None => "null"
  end.

Definition serialize_member (kx : string * value) : list string :=
  match serialize (snd kx) with
  | Some t => [(quote (fst kx) ++ ":" ++ t)%string]
  | None => []
  end.

(** ** The parameters of the request

    [OpenAIChatCompleteConfig], lines 12-124: for each parameter of a
    request the name it is sent under, whether it is required, its default
    and its bounds.  The interface [ProviderConfig] is declared outside this
    file; an entry has the fields the table gives. *)

Module ParameterConfig.
Record t : Type := mk {
  param : string;
  required : option bool;
  default : option value;
  min : option Z;
  max : option Z }.
(** [{ param: name }] *)
Definition plain (name : string) : t := mk name None None None None.
End ParameterConfig.

Definition OpenAIChatCompleteConfig : list (string * ParameterConfig.t) :=
  [("model",
    ParameterConfig.mk "model" (Some true) (Some (Str "gpt-3.5-turbo"))
      None None);
   ("messages",
    ParameterConfig.mk "messages" None (Some (Str EmptyString)) None None);
   ("functions", ParameterConfig.plain "functions");
   ("function_call", ParameterConfig.plain "function_call");
   ("max_tokens",
    ParameterConfig.mk "max_tokens" None (Some (Number 100)) (Some 0%Z) None);
   ("temperature",
    ParameterConfig.mk "temperature" None (Some (Number 1)) (Some 0%Z)
      (Some 2%Z));
   ("top_p",
    ParameterConfig.mk "top_p" None (Some (Number 1)) (Some 0%Z) (Some 1%Z));
   ("n", ParameterConfig.mk "n" None (Some (Number 1)) None None);
   ("stream", ParameterConfig.mk "stream" None (Some (Bool false)) None None);
   ("stop", ParameterConfig.plain "stop");
   ("presence_penalty",
    ParameterConfig.mk "presence_penalty" None None (Some (-2)%Z) (Some 2%Z));
   ("frequency_penalty",
    ParameterConfig.mk "frequency_penalty" None None (Some (-2)%Z) (Some 2%Z));
   ("logit_bias", ParameterConfig.plain "logit_bias");
   ("user", ParameterConfig.plain "user");
   ("seed", ParameterConfig.plain "seed");
   ("tools", ParameterConfig.plain "tools");
   ("tool_choice", ParameterConfig.plain "tool_choice");
   ("response_format", ParameterConfig.plain "response_format");
   ("logprobs",
    ParameterConfig.mk "logprobs" None (Some (Bool false)) None None);
   ("top_logprobs", ParameterConfig.plain "top_logprobs");
   ("stream_options", ParameterConfig.plain "stream_options");
   ("service_tier", ParameterConfig.plain "service_tier");
   ("parallel_tool_calls", ParameterConfig.plain "parallel_tool_calls");
   ("max_completion_tokens", ParameterConfig.plain "max_completion_tokens");
   ("store", ParameterConfig.plain "store");
   ("metadata", ParameterConfig.plain "metadata");
   ("modalities", ParameterConfig.plain "modalities");
   ("audio", ParameterConfig.plain "audio");
   ("prediction", ParameterConfig.plain "prediction");
   ("reasoning_effort", ParameterConfig.plain "reasoning_effort");
   ("web_search_options", ParameterConfig.plain "web_search_options")].

(** An entry is well formed: it sends the parameter under its own name, its
    bounds are in order and its default, when a number, is within them. *)
Definition bounded_below (lo : option Z) (d : Z) : bool :=
  match lo with
  | Some l => (l <=? d)%Z
  | None => true
  end.

Definition bounded_above (hi : option Z) (d : Z) : bool :=
  match hi with
  | Some h => (d <=? h)%Z
  | None => true
  end.

Definition entry_ok (kc : string * ParameterConfig.t) : bool :=
  let c := snd kc in
  String.eqb (ParameterConfig.param c) (fst kc)
  && match ParameterConfig.min c, ParameterConfig.max c with
     | Some lo, Some hi => (lo <=? hi)%Z
     | _, _ => true
     end
  && match ParameterConfig.default c with
     | Some (Number d) =>
         bounded_below (ParameterConfig.min c) d
         && bounded_above (ParameterConfig.max c) d
     | _ => true
     end.

(** A chunk with a line feed in its content. *)
Module Multiline.
Definition text : string := ("line one" ++ newline ++ "line two")%string.
Definition choice : Choice.t :=
  Choice.mk (Some (Message.mk (Some (Message.Text text)) None None)) None None.
Definition response : Response.t :=
  Response.mk "chatcmpl-9" (Some "gpt-4o") None [choice] None None.
End Multiline.

(** ** What is written of an object *)

Definition is_undefined (v : value) : bool :=
  match v with
  | Undefined => true
  | _ => false
  end.

(** The properties of an object that [JSON.stringify] writes: those whose
    value is not [undefined]. *)
Definition written_props (o : props) : props :=
  filter (fun kv => negb (is_undefined (snd kv))) o.

(** [needle] occurs in [s]. *)
Fixpoint occurs (needle s : string) : bool :=
  String.prefix needle s
  || match s with
     | EmptyString => false
     | String _ s' => occurs needle s'
     end.

(** Usages with cache counts that are not integers, and with counts whose
    sum is not a double. *)
Module Counts.

(** 1.5 *)
Definition one_and_a_half : value :=
  Real (Decimal.Decimal (Decimal.Pos (Decimal.D1 Decimal.Nil))
          (Decimal.D5 Decimal.Nil)).

Definition response_with (u : Usage.t) : Response.t :=
  Response.mk "chatcmpl-10" (Some "claude") None [Sample.bare_choice] (Some u)
    None.

(** [cache_read_input_tokens: 1.5], no [cache_creation_input_tokens]. *)
Definition fraction : Response.t :=
  response_with (Usage.mk (Some 12%Z) (Some 30%Z) one_and_a_half Undefined None).

(** [cache_read_input_tokens: null], no [cache_creation_input_tokens]. *)
Definition null_only : Response.t :=
  response_with (Usage.mk (Some 12%Z) (Some 30%Z) Null Undefined None).

(** [cache_read_input_tokens: 5], [cache_creation_input_tokens: null]. *)
Definition integer_and_null : Response.t :=
  response_with (Usage.mk (Some 12%Z) (Some 30%Z) (Number 5) Null None).

(** [cache_creation_input_tokens: 5], no [cache_read_input_tokens]. *)
Definition creation_only : Response.t :=
  response_with (Usage.mk (Some 12%Z) (Some 30%Z) Undefined (Number 5) None).

(** [prompt_tokens: 9007199254740992], [completion_tokens: 1]. *)
Definition huge : Response.t :=
  response_with
    (Usage.mk (Some 9007199254740992%Z) (Some 1%Z) Undefined Undefined None).

End Counts.

(** ** Strings and the slicing loop *)
Lemma for_each_slice_step {A : Type} (s : string) (body : A -> string -> A) i acc :
  for_each_slice s body i acc =
  if i <? String.length s
  then for_each_slice s body (i + 500) (body acc (slice s i (i + 500)))
  else acc.
Proof.
  rewrite for_each_slice_equation_1.
  destruct (lt_dec i (String.length s)) as [H|H]; simpl.
  - apply Nat.ltb_lt in H. rewrite H. reflexivity.
  - apply Nat.ltb_nlt in H. rewrite H. reflexivity.
Qed.

Section PushLoops.
Context {A : Type} (body : list A -> string -> list A) (f : string -> A).
Hypothesis body_push : forall arr x, body arr x = arr ++ [f x].

Lemma for_each_slice_acc (s : string) :
  forall n i arr, String.length s - i <= n ->
  for_each_slice s body i arr = arr ++ for_each_slice s body i [].
Proof.
  induction n as [|n IH]; intros i arr Hn;
    rewrite (for_each_slice_step s body i arr), (for_each_slice_step s body i []);
    destruct (i <? String.length s) eqn:H;
    try (now rewrite app_nil_r);
    apply Nat.ltb_lt in H; try lia.
  rewrite (IH (i + 500) (body arr _)), (IH (i + 500) (body [] _)) by lia.
  rewrite !body_push. simpl. now rewrite <- app_assoc.
Qed.

Lemma for_each_slice_cons (s : string) (i : nat) :
  for_each_slice s body i [] =
  if i <? String.length s
  then f (slice s i (i + 500)) :: for_each_slice s body (i + 500) []
  else [].
Proof.
  rewrite for_each_slice_step. destruct (i <? String.length s); [|reflexivity].
  rewrite (for_each_slice_acc s (String.length s)) by lia.
  now rewrite body_push.
Qed.
End PushLoops.

Lemma slices_step (s : string) (i : nat) :
  slices s i =
  if i <? String.length s then slice s i (i + 500) :: slices s (i + 500) else [].
Proof.
  unfold slices.
  exact (for_each_slice_cons _ (fun w => w) (fun _ _ => eq_refl) s i).
Qed.

Lemma for_each_slice_push {A : Type} (f : string -> A) (s : string) (i : nat) (arr : list A) :
  for_each_slice s (fun arr x => push arr (f x)) i arr = arr ++ map f (slices s i).
Proof.
  rewrite (for_each_slice_acc _ f (fun _ _ => eq_refl) s (String.length s)) by lia.
  f_equal.
  assert (H : forall n i, String.length s - i <= n ->
              for_each_slice s (fun arr x => push arr (f x)) i [] = map f (slices s i)).
  { induction n as [|n IH]; intros j Hn;
      rewrite (for_each_slice_cons _ f (fun _ _ => eq_refl)), slices_step;
      destruct (j <? String.length s) eqn:H; try reflexivity;
      apply Nat.ltb_lt in H; try lia.
    simpl. f_equal. apply IH. lia. }
  apply (H (String.length s)). lia.
Qed.

Lemma length_substring (s : string) : forall i m,
  String.length (substring i m s) = Nat.min m (String.length s - i).
Proof.
  induction s as [|c s IH]; intros [|i] [|m]; simpl; auto;
    rewrite IH; lia.
Qed.

Lemma substring_drop (s : string) : forall i m,
  (substring i m s ++ drop (i + m) s)%string = drop i s.
Proof.
  induction s as [|c s IH]; intros [|i] [|m]; simpl; auto.
  f_equal. apply (IH 0 m).
Qed.

Lemma drop_all (s : string) : forall i, String.length s <= i -> drop i s = EmptyString.
Proof.
  induction s as [|c s IH]; intros [|i] H; simpl in *; auto; try lia.
  apply IH. lia.
Qed.

Lemma concat_slices (s : string) :
  forall n i, String.length s - i <= n -> concat_strings (slices s i) = drop i s.
Proof.
  induction n as [|n IH]; intros i Hn; rewrite slices_step;
    destruct (i <? String.length s) eqn:H;
    try (apply Nat.ltb_ge in H; simpl; symmetry; now apply drop_all);
    apply Nat.ltb_lt in H; try lia.
  simpl. rewrite IH by lia. unfold slice.
  replace (i + 500 - i) with 500 by lia. apply substring_drop.
Qed.

Lemma slices_bounds (s : string) :
  forall n i, String.length s - i <= n ->
  Forall (fun w => 1 <= String.length w <= 500) (slices s i).
Proof.
  induction n as [|n IH]; intros i Hn; rewrite slices_step;
    destruct (i <? String.length s) eqn:H; try constructor;
    apply Nat.ltb_lt in H; try lia.
  - unfold slice. rewrite length_substring. lia.
  - apply IH. lia.
Qed.

Lemma slices_count (s : string) :
  forall n i, String.length s - i <= n ->
  List.length (slices s i) = (String.length s - i + 499) / 500.
Proof.
  induction n as [|n IH]; intros i Hn; rewrite slices_step;
    destruct (i <? String.length s) eqn:H.
  - apply Nat.ltb_lt in H. lia.
  - apply Nat.ltb_ge in H. replace (String.length s - i) with 0 by lia. reflexivity.
  - apply Nat.ltb_lt in H. cbn [List.length]. rewrite IH by lia.
    destruct (le_lt_dec (String.length s) (i + 500)) as [Hs|Hl].
    + replace (String.length s - (i + 500)) with 0 by lia.
      change ((0 + 499) / 500) with 0.
      apply (Nat.div_unique _ _ _ (String.length s - i - 1)); lia.
    + replace (String.length s - i + 499)
        with (String.length s - (i + 500) + 499 + 1 * 500) by lia.
      rewrite Nat.div_add by lia. lia.
  - apply Nat.ltb_ge in H. replace (String.length s - i) with 0 by lia. reflexivity.
Qed.

(** ** Objects *)

Lemma get_set_same (k : string) (v : value) (o : props) :
  get k (set k v o) = v.
Proof.
  induction o as [|[k' v'] o IH]; simpl.
  - now rewrite String.eqb_refl.
  - destruct (String.eqb k k') eqn:E; simpl; rewrite E; auto.
Qed.

Lemma chunk_choice_chunk_of (template : props) (choice : list member) :
  chunk_choice (chunk_of template choice) = obj choice.
Proof.
  unfold chunk_of, object_literal. simpl. now rewrite get_set_same.
Qed.

(** ** The loops as concatenations *)

Lemma for_entries_from {A B : Type} (body : list B -> nat -> A -> list B)
    (g : nat -> A -> list B)
    (Hbody : forall acc i x, body acc i x = acc ++ g i x) (l : list A) :
  forall k acc,
  fold_left (fun acc ix => body acc (fst ix) (snd ix))
    (combine (seq k (List.length l)) l) acc
  = acc ++ flat_map (fun ix => g (fst ix) (snd ix))
             (combine (seq k (List.length l)) l).
Proof.
  induction l as [|x l IH]; intros k acc; simpl.
  - now rewrite app_nil_r.
  - rewrite IH, Hbody. now rewrite <- app_assoc.
Qed.

Lemma for_entries_app {A B : Type} (body : list B -> nat -> A -> list B)
    (g : nat -> A -> list B)
    (Hbody : forall acc i x, body acc i x = acc ++ g i x)
    (l : list A) (acc : list B) :
  for_entries l body acc
  = acc ++ flat_map (fun ix => g (fst ix) (snd ix)) (entries l).
Proof. apply for_entries_from, Hbody. Qed.

Lemma fold_left_push {A B : Type} (f : A -> B) (l : list A) :
  forall acc, fold_left (fun arr x => push arr (f x)) l acc = acc ++ map f l.
Proof.
  induction l as [|x l IH]; intros acc; simpl.
  - now rewrite app_nil_r.
  - rewrite IH. unfold push. now rewrite <- app_assoc.
Qed.

Lemma block_chunks_eq (template : props) (i j : nat) (b : ContentBlock.t) :
  block_chunks template i j b =
  if truthy_string (ContentBlock.text b) then
    map (text_chunk template i j) (slices (string_of (ContentBlock.text b)) 0)
  else if truthy_string (ContentBlock.thinking b) then
    map (thinking_chunk template i j)
      (slices (string_of (ContentBlock.thinking b)) 0)
    ++ [signature_chunk template i j (ContentBlock.signature b)]
  else if truthy_string (ContentBlock.data b) then
    map (data_chunk template i j) (slices (string_of (ContentBlock.data b)) 0)
  else [].
Proof.
  unfold block_chunks, content_block_step, contentBlockDelta_of. simpl.
  rewrite !for_each_slice_push. unfold push. simpl.
  reflexivity.
Qed.

Lemma content_block_step_app (template : props) (i : nat) (arr : list chunk)
    (j : nat) (b : ContentBlock.t) :
  content_block_step template i arr j b = arr ++ block_chunks template i j b.
Proof.
  rewrite block_chunks_eq.
  unfold content_block_step, contentBlockDelta_of. simpl.
  rewrite !for_each_slice_push. unfold push.
  destruct (truthy_string (ContentBlock.text b)); [reflexivity|].
  destruct (truthy_string (ContentBlock.thinking b));
    [now rewrite <- app_assoc|].
  destruct (truthy_string (ContentBlock.data b)); [reflexivity|].
  now rewrite app_nil_r.
Qed.

Lemma tool_call_step_app (template : props) (i : nat) (arr : list chunk)
    (k : nat) (tc : ToolCall.t) :
  tool_call_step template i arr k tc = arr ++ tool_call_chunks template i k tc.
Proof.
  unfold tool_call_chunks, tool_call_step, push. simpl.
  now rewrite <- app_assoc.
Qed.

Lemma tool_call_chunks_eq (template : props) (i k : nat) (tc : ToolCall.t) :
  tool_call_chunks template i k tc =
  [tool_name_chunk template i k tc; tool_arguments_chunk template i k tc].
Proof. reflexivity. Qed.

Lemma choice_block_chunks_eq (template : props) (i : nat) (c : Choice.t) :
  choice_block_chunks template i c =
  match Choice.message c with
  | Some m =>
      match Message.content_blocks m with
      | Some bs =>
          flat_map (fun jb => block_chunks template i (fst jb) (snd jb))
            (entries bs)
      | None => []
      end
  | None => []
  end.
Proof.
  unfold choice_block_chunks, content_blocks_step.
  destruct (Choice.message c) as [m|]; [|reflexivity].
  destruct (Message.content_blocks m) as [bs|]; [|reflexivity].
  now rewrite (for_entries_app _ _ (content_block_step_app template i)).
Qed.

Lemma content_blocks_step_app (template : props) (i : nat) (c : Choice.t)
    (arr : list chunk) :
  content_blocks_step template i c arr
  = arr ++ choice_block_chunks template i c.
Proof.
  rewrite choice_block_chunks_eq. unfold content_blocks_step.
  destruct (Choice.message c) as [m|]; [|now rewrite app_nil_r].
  destruct (Message.content_blocks m) as [bs|]; [|now rewrite app_nil_r].
  now rewrite (for_entries_app _ _ (content_block_step_app template i)).
Qed.

Lemma choice_tool_chunks_eq (template : props) (i : nat) (c : Choice.t) :
  choice_tool_chunks template i c =
  match Choice.message c with
  | Some m =>
      match Message.tool_calls m with
      | Some tcs =>
          flat_map (fun kt => tool_call_chunks template i (fst kt) (snd kt))
            (entries tcs)
      | None => []
      end
  | None => []
  end.
Proof.
  unfold choice_tool_chunks, tool_calls_step.
  destruct (Choice.message c) as [m|]; [|reflexivity].
  destruct (Message.tool_calls m) as [[|tc tcs]|]; try reflexivity.
  now rewrite (for_entries_app _ _ (tool_call_step_app template i)).
Qed.

Lemma tool_calls_step_app (template : props) (i : nat) (c : Choice.t)
    (arr : list chunk) :
  tool_calls_step template i c arr = arr ++ choice_tool_chunks template i c.
Proof.
  rewrite choice_tool_chunks_eq. unfold tool_calls_step.
  destruct (Choice.message c) as [m|]; [|now rewrite app_nil_r].
  destruct (Message.tool_calls m) as [[|tc tcs]|];
    try (simpl; now rewrite app_nil_r).
  now rewrite (for_entries_app _ _ (tool_call_step_app template i)).
Qed.

Lemma choice_content_chunks_eq (template : props) (i : nat) (c : Choice.t) :
  choice_content_chunks template i c =
  match Choice.message c with
  | Some m =>
      match Message.content m, Message.content_blocks m with
      | Some (Message.Text s), None =>
          map (content_chunk template i c) (slices s 0)
      | _, _ => []
      end
  | None => []
  end.
Proof.
  unfold choice_content_chunks, content_step.
  destruct (Choice.message c) as [m|]; [|reflexivity].
  destruct (Message.content m) as [[s|l]|]; try reflexivity.
  destruct (Message.content_blocks m); [reflexivity|].
  destruct s as [|a s]; simpl.
  - now rewrite slices_step.
  - now rewrite fold_left_push.
Qed.

Lemma content_step_app (template : props) (i : nat) (c : Choice.t)
    (arr : list chunk) :
  content_step template i c arr = arr ++ choice_content_chunks template i c.
Proof.
  unfold choice_content_chunks, content_step.
  destruct (Choice.message c) as [m|]; [|now rewrite app_nil_r].
  destruct (Message.content m) as [[s|l]|]; try now rewrite app_nil_r.
  destruct (Message.content_blocks m); [now rewrite app_nil_r|].
  destruct (truthy_string (Some s)); [|now rewrite app_nil_r].
  now rewrite !fold_left_push.
Qed.

Lemma choice_chunks_eq (template : props) (i : nat) (c : Choice.t) :
  choice_chunks template i c =
  choice_block_chunks template i c ++ choice_tool_chunks template i c
  ++ choice_content_chunks template i c ++ [finish_chunk template i c].
Proof.
  unfold choice_chunks, choice_step, push.
  rewrite content_step_app, tool_calls_step_app, content_blocks_step_app.
  simpl. now rewrite <- !app_assoc.
Qed.

Lemma choice_step_app (template : props) (arr : list chunk) (i : nat)
    (c : Choice.t) :
  choice_step template arr i c = arr ++ choice_chunks template i c.
Proof.
  rewrite choice_chunks_eq. unfold choice_step, push.
  rewrite content_step_app, tool_calls_step_app, content_blocks_step_app.
  now rewrite <- !app_assoc.
Qed.

Lemma streamChunkArray_of_eq (A : string) (now : Z) (r : Response.t)
    (p : string) :
  streamChunkArray_of A now r p =
  flat_map (fun ic => choice_chunks (streamChunkTemplate A now r p)
                        (fst ic) (snd ic))
    (entries (Response.choices r))
  ++ [DONE].
Proof.
  unfold streamChunkArray_of, push.
  now rewrite (for_entries_app _ _ (choice_step_app _)).
Qed.

(** ** What each chunk shows *)

Lemma nat_of_index_value (i : nat) : nat_of_value (index_value i) = Some i.
Proof.
  unfold nat_of_value, index_value.
  destruct (Z.leb_spec 0 (Z.of_nat i)); [now rewrite Nat2Z.id | lia].
Qed.

Lemma at_index_same (i : nat) : at_index (Some i) i = true.
Proof. apply Nat.eqb_refl. Qed.

Lemma at_index_other (i j : nat) : i <> j -> at_index (Some i) j = false.
Proof. intros H. now apply Nat.eqb_neq. Qed.

Ltac observe :=
  unfold of_block, of_tool_call, of_choice, is_content_block_chunk,
    is_tool_call_chunk, is_finish_chunk, block_payload, content_payload,
    choice_index, block_index, tool_call_index, content_block_of,
    tool_call_of, delta_of;
  unfold text_chunk, thinking_chunk, signature_chunk, data_chunk,
    tool_name_chunk, tool_arguments_chunk, content_chunk, finish_chunk;
  rewrite ?chunk_choice_chunk_of;
  cbn -[index_value nat_of_value];
  rewrite ?nat_of_index_value.

Lemma choice_index_text t i j s : choice_index (text_chunk t i j s) = Some i.
Proof. now observe. Qed.
Lemma choice_index_thinking t i j s :
  choice_index (thinking_chunk t i j s) = Some i.
Proof. now observe. Qed.
Lemma choice_index_signature t i j s :
  choice_index (signature_chunk t i j s) = Some i.
Proof. now observe. Qed.
Lemma choice_index_data t i j s : choice_index (data_chunk t i j s) = Some i.
Proof. now observe. Qed.
Lemma choice_index_tool_name t i k tc :
  choice_index (tool_name_chunk t i k tc) = Some i.
Proof. now observe. Qed.
Lemma choice_index_tool_arguments t i k tc :
  choice_index (tool_arguments_chunk t i k tc) = Some i.
Proof. now observe. Qed.
Lemma choice_index_content t i c w :
  choice_index (content_chunk t i c w) = Some i.
Proof. destruct c as [m f [g|]]; now observe. Qed.
Lemma choice_index_finish t i c : choice_index (finish_chunk t i c) = Some i.
Proof. now observe. Qed.

Lemma delta_of_content t i c w :
  delta_of (content_chunk t i c w)
  = obj [Field "role" (Str "assistant"); Field "content" (Str w)].
Proof. destruct c as [m f [g|]]; now observe. Qed.

Lemma text_chunk_shape t i j s : block_chunk_shape i j (text_chunk t i j s).
Proof. repeat split; now observe. Qed.

Lemma thinking_chunk_shape t i j s :
  block_chunk_shape i j (thinking_chunk t i j s).
Proof. repeat split; now observe. Qed.

Lemma signature_chunk_shape t i j s :
  block_chunk_shape i j (signature_chunk t i j s).
Proof. repeat split; now observe. Qed.

Lemma data_chunk_shape t i j s : block_chunk_shape i j (data_chunk t i j s).
Proof. repeat split; now observe. Qed.

Lemma tool_name_chunk_shape t i k tc :
  tool_chunk_shape i k (tool_name_chunk t i k tc).
Proof. repeat split; now observe. Qed.

Lemma tool_arguments_chunk_shape t i k tc :
  tool_chunk_shape i k (tool_arguments_chunk t i k tc).
Proof. repeat split; now observe. Qed.

Lemma content_chunk_has_shape t i c w :
  content_chunk_shape i (content_chunk t i c w).
Proof. destruct c as [m f [g|]]; repeat split; now observe. Qed.

Lemma finish_chunk_has_shape t i c : finish_chunk_shape i (finish_chunk t i c).
Proof. repeat split; now observe. Qed.

Lemma block_chunks_shape t i j b :
  Forall (block_chunk_shape i j) (block_chunks t i j b).
Proof.
  rewrite block_chunks_eq.
  destruct (truthy_string (ContentBlock.text b)).
  { apply Forall_map, Forall_forall. intros; apply text_chunk_shape. }
  destruct (truthy_string (ContentBlock.thinking b)).
  { apply Forall_app. split.
    - apply Forall_map, Forall_forall. intros; apply thinking_chunk_shape.
    - apply Forall_cons; [apply signature_chunk_shape | apply Forall_nil]. }
  destruct (truthy_string (ContentBlock.data b)); [|constructor].
  apply Forall_map, Forall_forall. intros; apply data_chunk_shape.
Qed.

Lemma tool_call_chunks_shape t i k tc :
  Forall (tool_chunk_shape i k) (tool_call_chunks t i k tc).
Proof.
  rewrite tool_call_chunks_eq.
  apply Forall_cons; [apply tool_name_chunk_shape|].
  apply Forall_cons; [apply tool_arguments_chunk_shape | apply Forall_nil].
Qed.

Lemma Forall_flat_map_entries {A B : Type} (g : nat -> A -> list B)
    (P : B -> Prop) (l : list A) :
  (forall i x, Forall P (g i x)) ->
  Forall P (flat_map (fun ix => g (fst ix) (snd ix)) (entries l)).
Proof.
  intros H. apply Forall_flat_map, Forall_forall. intros; apply H.
Qed.

Lemma choice_block_chunks_shape t i c :
  Forall (fun x => exists j, block_chunk_shape i j x)
    (choice_block_chunks t i c).
Proof.
  rewrite choice_block_chunks_eq.
  destruct (Choice.message c) as [m|]; [|constructor].
  destruct (Message.content_blocks m) as [bs|]; [|constructor].
  apply Forall_flat_map_entries. intros j b.
  eapply Forall_impl; [|apply block_chunks_shape]. intros x Hx. now exists j.
Qed.

Lemma choice_tool_chunks_shape t i c :
  Forall (fun x => exists k, tool_chunk_shape i k x) (choice_tool_chunks t i c).
Proof.
  rewrite choice_tool_chunks_eq.
  destruct (Choice.message c) as [m|]; [|constructor].
  destruct (Message.tool_calls m) as [tcs|]; [|constructor].
  apply Forall_flat_map_entries. intros k tc.
  eapply Forall_impl; [|apply tool_call_chunks_shape]. intros x Hx. now exists k.
Qed.

Lemma choice_content_chunks_shape t i c :
  Forall (content_chunk_shape i) (choice_content_chunks t i c).
Proof.
  rewrite choice_content_chunks_eq.
  destruct (Choice.message c) as [m|]; [|constructor].
  destruct (Message.content m) as [[s|l]|]; try constructor.
  destruct (Message.content_blocks m); [constructor|].
  apply Forall_map, Forall_forall. intros; apply content_chunk_has_shape.
Qed.

Lemma choice_chunks_index t i c :
  Forall (fun x => choice_index x = Some i) (choice_chunks t i c).
Proof.
  rewrite choice_chunks_eq. repeat (apply Forall_app; split).
  - eapply Forall_impl; [|apply choice_block_chunks_shape].
    now intros x [j Hx]; apply Hx.
  - eapply Forall_impl; [|apply choice_tool_chunks_shape].
    now intros x [k Hx]; apply Hx.
  - eapply Forall_impl; [|apply choice_content_chunks_shape].
    now intros x Hx; apply Hx.
  - apply Forall_cons; [apply finish_chunk_has_shape | apply Forall_nil].
Qed.

(** ** Finding the chunks of one index among those of a loop *)

Lemma filter_all {A : Type} (p : A -> bool) (l : list A) :
  Forall (fun x => p x = true) l -> filter p l = l.
Proof.
  induction 1 as [|x l Hx _ IH]; simpl; [reflexivity|].
  now rewrite Hx, IH.
Qed.

Lemma filter_none {A : Type} (p : A -> bool) (l : list A) :
  Forall (fun x => p x = false) l -> filter p l = [].
Proof.
  induction 1 as [|x l Hx _ IH]; simpl; [reflexivity|].
  now rewrite Hx.
Qed.

Lemma filter_andb {A : Type} (p q : A -> bool) (l : list A) :
  filter (fun x => p x && q x) l = filter q (filter p l).
Proof.
  induction l as [|x l IH]; simpl; [reflexivity|].
  destruct (p x); simpl; [destruct (q x)|]; now rewrite IH.
Qed.

Section Indexed.
Context {A : Type} (g : nat -> A -> list chunk) (idx : chunk -> option nat).
Hypothesis g_idx : forall i x, Forall (fun c => idx c = Some i) (g i x).

Lemma entries_from_split (l : list A) :
  forall k i x, nth_error l i = Some x ->
  exists pre post,
    flat_map (fun ix => g (fst ix) (snd ix)) (combine (seq k (List.length l)) l)
    = pre ++ g (k + i) x ++ post
    /\ Forall (fun c => exists m, m < k + i /\ idx c = Some m) pre
    /\ Forall (fun c => exists m, k + i < m /\ idx c = Some m) post.
Proof.
  induction l as [|y l IH]; intros k [|i] x H; simpl in H; try discriminate.
  - injection H as ->. exists [], (flat_map (fun ix => g (fst ix) (snd ix))
                                     (combine (seq (S k) (List.length l)) l)).
    rewrite Nat.add_0_r. simpl. split; [reflexivity|]. split; [constructor|].
    apply Forall_flat_map, Forall_forall. intros [m z] Hin.
    apply in_combine_l, in_seq in Hin. simpl.
    eapply Forall_impl; [|apply g_idx]. intros c Hc. exists m. split; [lia|auto].
  - destruct (IH (S k) i x H) as (pre & post & E & Hpre & Hpost).
    exists (g k y ++ pre), post. simpl. rewrite E.
    replace (S k + i) with (k + S i) in * by lia.
    split; [now rewrite <- app_assoc|]. split; [|exact Hpost].
    apply Forall_app. split; [|exact Hpre].
    eapply Forall_impl; [|apply g_idx]. intros c Hc. exists k. split; [lia|auto].
Qed.

Lemma entries_split (l : list A) (i : nat) (x : A) :
  nth_error l i = Some x ->
  exists pre post,
    flat_map (fun ix => g (fst ix) (snd ix)) (entries l) = pre ++ g i x ++ post
    /\ Forall (fun c => at_index (idx c) i = false) pre
    /\ Forall (fun c => at_index (idx c) i = false) post.
Proof.
  intros H. destruct (entries_from_split l 0 i x H) as (pre & post & E & Hp & Hq).
  exists pre, post. split; [exact E|].
  split; (eapply Forall_impl; [|eassumption]); intros c (m & Hm & ->);
    apply at_index_other; simpl in Hm; lia.
Qed.

Lemma filter_entries (l : list A) (i : nat) (x : A) :
  nth_error l i = Some x ->
  filter (fun c => at_index (idx c) i)
    (flat_map (fun ix => g (fst ix) (snd ix)) (entries l))
  = g i x.
Proof.
  intros H. destruct (entries_split l i x H) as (pre & post & -> & Hp & Hq).
  rewrite !filter_app, (filter_none _ pre Hp), (filter_none _ post Hq).
  rewrite app_nil_r. simpl. apply filter_all.
  eapply Forall_impl; [|apply g_idx]. intros c ->. apply at_index_same.
Qed.
End Indexed.
(** ** The chunks of one choice, one block, one tool call in the output *)

Section Output.
Variable ANTHROPIC : string.
Variables (now : Z) (r : Response.t) (p : string).

Let template := streamChunkTemplate ANTHROPIC now r p.
Let out := streamChunkArray_of ANTHROPIC now r p.

Lemma output_choice_split (i : nat) (ch : Choice.t) :
  nth_error (Response.choices r) i = Some ch ->
  exists pre post,
    out = pre ++ choice_chunks template i ch ++ post
    /\ Forall (fun c => of_choice i c = false) pre
    /\ Forall (fun c => of_choice i c = false) post.
Proof.
  intros H. unfold out. rewrite streamChunkArray_of_eq.
  destruct (entries_split (choice_chunks template) choice_index
              (choice_chunks_index template) _ i ch H)
    as (pre & post & E & Hpre & Hpost).
  fold template. rewrite E. exists pre, (post ++ [DONE]).
  split; [now rewrite <- !app_assoc|]. split; [exact Hpre|].
  apply Forall_app. split; [exact Hpost|].
  apply Forall_cons; [reflexivity | apply Forall_nil].
Qed.

Lemma filter_of_choice (i : nat) (ch : Choice.t) :
  nth_error (Response.choices r) i = Some ch ->
  filter (of_choice i) out = choice_chunks template i ch.
Proof.
  intros H. destruct (output_choice_split i ch H) as (pre & post & -> & Hp & Hq).
  rewrite !filter_app, (filter_none _ pre Hp), (filter_none _ post Hq).
  rewrite app_nil_r. simpl. apply filter_all.
  eapply Forall_impl; [|apply choice_chunks_index].
  intros c Hc. unfold of_choice. rewrite Hc. apply at_index_same.
Qed.

Lemma filter_of_block (i : nat) (ch : Choice.t) (m : Message.t)
    (bs : list ContentBlock.t) (j : nat) (b : ContentBlock.t) :
  nth_error (Response.choices r) i = Some ch ->
  Choice.message ch = Some m -> Message.content_blocks m = Some bs ->
  nth_error bs j = Some b ->
  filter (of_block i j) out = block_chunks template i j b.
Proof.
  intros Hch Hm Hbs Hb. unfold of_block.
  rewrite filter_andb, (filter_of_choice i ch Hch), choice_chunks_eq.
  rewrite !filter_app.
  rewrite (filter_none _ (choice_tool_chunks template i ch)).
  2:{ eapply Forall_impl; [|apply choice_tool_chunks_shape].
      intros c (k & Hc). now replace (block_index c) with (@None nat)
        by (symmetry; apply Hc). }
  rewrite (filter_none _ (choice_content_chunks template i ch)).
  2:{ eapply Forall_impl; [|apply choice_content_chunks_shape].
      intros c Hc. now replace (block_index c) with (@None nat)
        by (symmetry; apply Hc). }
  rewrite (filter_none _ [finish_chunk template i ch]).
  2:{ apply Forall_cons; [|apply Forall_nil].
      now replace (block_index (finish_chunk template i ch)) with (@None nat)
        by (symmetry; apply finish_chunk_has_shape). }
  rewrite !app_nil_r, choice_block_chunks_eq, Hm, Hbs.
  apply (filter_entries (block_chunks template i) block_index); [|exact Hb].
  intros j' b'. eapply Forall_impl; [|apply block_chunks_shape].
  intros c Hc. apply Hc.
Qed.

Lemma filter_of_tool_call (i : nat) (ch : Choice.t) (m : Message.t)
    (tcs : list ToolCall.t) (k : nat) (tc : ToolCall.t) :
  nth_error (Response.choices r) i = Some ch ->
  Choice.message ch = Some m -> Message.tool_calls m = Some tcs ->
  nth_error tcs k = Some tc ->
  filter (of_tool_call i k) out = tool_call_chunks template i k tc.
Proof.
  intros Hch Hm Htcs Htc. unfold of_tool_call.
  rewrite filter_andb, (filter_of_choice i ch Hch), choice_chunks_eq.
  rewrite !filter_app.
  rewrite (filter_none _ (choice_block_chunks template i ch)).
  2:{ eapply Forall_impl; [|apply choice_block_chunks_shape].
      intros c (j & Hc). now replace (tool_call_index c) with (@None nat)
        by (symmetry; apply Hc). }
  rewrite (filter_none _ (choice_content_chunks template i ch)).
  2:{ eapply Forall_impl; [|apply choice_content_chunks_shape].
      intros c Hc. now replace (tool_call_index c) with (@None nat)
        by (symmetry; apply Hc). }
  rewrite (filter_none _ [finish_chunk template i ch]).
  2:{ apply Forall_cons; [|apply Forall_nil].
      now replace (tool_call_index (finish_chunk template i ch))
        with (@None nat) by (symmetry; apply finish_chunk_has_shape). }
  rewrite app_nil_r. simpl. rewrite choice_tool_chunks_eq, Hm, Htcs.
  apply (filter_entries (tool_call_chunks template i) tool_call_index);
    [|exact Htc].
  intros k' tc'. eapply Forall_impl; [|apply tool_call_chunks_shape].
  intros c Hc. apply Hc.
Qed.

End Output.

(** ** Payloads *)

Lemma payloads_app (f : chunk -> option string) (l1 l2 : list chunk) :
  payloads f (l1 ++ l2) = payloads f l1 ++ payloads f l2.
Proof. apply flat_map_app. Qed.

Lemma payloads_map_some (f : chunk -> option string) (mk : string -> chunk)
    (l : list string) :
  (forall s, f (mk s) = Some s) -> payloads f (map mk l) = l.
Proof.
  intros H. induction l as [|s l IH]; simpl; [reflexivity|].
  now rewrite H, IH.
Qed.

Lemma payloads_none (f : chunk -> option string) (l : list chunk) :
  Forall (fun c => f c = None) l -> payloads f l = [].
Proof.
  induction 1 as [|c l Hc _ IH]; simpl; [reflexivity|]. now rewrite Hc.
Qed.

Lemma payloads_map_none (f : chunk -> option string) (mk : string -> chunk)
    (l : list string) :
  (forall s, f (mk s) = None) -> payloads f (map mk l) = [].
Proof.
  intros H. apply payloads_none, Forall_map, Forall_forall. intros; apply H.
Qed.

Lemma text_payloads_block t i j b :
  payloads (block_payload "text") (block_chunks t i j b) =
  if truthy_string (ContentBlock.text b)
  then slices (string_of (ContentBlock.text b)) 0 else [].
Proof.
  rewrite block_chunks_eq.
  destruct (truthy_string (ContentBlock.text b)).
  { apply payloads_map_some. intros; now observe. }
  destruct (truthy_string (ContentBlock.thinking b)).
  { rewrite payloads_app, payloads_map_none by (intros; now observe).
    apply payloads_none. apply Forall_cons; [now observe | apply Forall_nil]. }
  destruct (truthy_string (ContentBlock.data b)); [|reflexivity].
  apply payloads_map_none. intros; now observe.
Qed.

Lemma thinking_payloads_block t i j b :
  payloads (block_payload "thinking") (block_chunks t i j b) =
  if truthy_string (ContentBlock.text b) then []
  else if truthy_string (ContentBlock.thinking b)
  then slices (string_of (ContentBlock.thinking b)) 0 else [].
Proof.
  rewrite block_chunks_eq.
  destruct (truthy_string (ContentBlock.text b)).
  { apply payloads_map_none. intros; now observe. }
  destruct (truthy_string (ContentBlock.thinking b)).
  { rewrite payloads_app, payloads_map_some by (intros; now observe).
    rewrite payloads_none; [apply app_nil_r|].
    apply Forall_cons; [now observe | apply Forall_nil]. }
  destruct (truthy_string (ContentBlock.data b)); [|reflexivity].
  apply payloads_map_none. intros; now observe.
Qed.

Lemma data_payloads_block t i j b :
  payloads (block_payload "data") (block_chunks t i j b) =
  if truthy_string (ContentBlock.text b) then []
  else if truthy_string (ContentBlock.thinking b) then []
  else if truthy_string (ContentBlock.data b)
  then slices (string_of (ContentBlock.data b)) 0 else [].
Proof.
  rewrite block_chunks_eq.
  destruct (truthy_string (ContentBlock.text b)).
  { apply payloads_map_none. intros; now observe. }
  destruct (truthy_string (ContentBlock.thinking b)).
  { rewrite payloads_app, payloads_map_none by (intros; now observe).
    apply payloads_none. apply Forall_cons; [now observe | apply Forall_nil]. }
  destruct (truthy_string (ContentBlock.data b)); [|reflexivity].
  apply payloads_map_some. intros; now observe.
Qed.

Lemma concat_slices_all (s : string) : concat_strings (slices s 0) = s.
Proof. now rewrite (concat_slices s (String.length s)) by lia. Qed.

Lemma falsy_string_of (s : option string) :
  truthy_string s = false -> string_of s = EmptyString.
Proof. now destruct s as [[|a s]|]. Qed.

Lemma content_payloads_choice t i ch :
  payloads content_payload (choice_chunks t i ch) =
  match Choice.message ch with
  | Some m =>
      match Message.content m, Message.content_blocks m with
      | Some (Message.Text s), None => slices s 0
      | _, _ => []
      end
  | None => []
  end.
Proof.
  rewrite choice_chunks_eq, !payloads_app.
  rewrite (payloads_none _ (choice_block_chunks t i ch)).
  2:{ eapply Forall_impl; [|apply choice_block_chunks_shape].
      intros c (j & Hc). apply Hc. }
  rewrite (payloads_none _ (choice_tool_chunks t i ch)).
  2:{ eapply Forall_impl; [|apply choice_tool_chunks_shape].
      intros c (j & Hc). apply Hc. }
  rewrite (payloads_none _ [finish_chunk t i ch]).
  2:{ apply Forall_cons; [apply finish_chunk_has_shape | apply Forall_nil]. }
  rewrite app_nil_r. simpl. rewrite choice_content_chunks_eq.
  destruct (Choice.message ch) as [m|]; [|reflexivity].
  destruct (Message.content m) as [[s|l]|]; try reflexivity.
  destruct (Message.content_blocks m); [reflexivity|].
  apply payloads_map_some. intros w.
  unfold content_payload. rewrite delta_of_content. reflexivity.
Qed.
(** ** Slices *)

(** C1. For every choice and every content block of it, the slices carried
    under [text] by the chunks of that block, concatenated in the order of the
    output, give the block's [text]; those carried under [thinking] give its
    [thinking] and those under [data] its [data], for the field the block is
    emitted by (the first non-empty one of [text], [thinking], [data]).  On
    the flat-content path ([content] a string, no [content_blocks]) the
    slices carried in [delta.content] by the chunks of the choice give
    [content]. *)
Theorem slices_concat_to_field (ANTHROPIC : string) (now : Z)
    (r : Response.t) (p : string) (i : nat) (ch : Choice.t) (m : Message.t) :
  nth_error (Response.choices r) i = Some ch ->
  Choice.message ch = Some m ->
  (forall bs j b,
     Message.content_blocks m = Some bs -> nth_error bs j = Some b ->
     let evs := filter (of_block i j) (streamChunkArray_of ANTHROPIC now r p) in
     concat_strings (payloads (block_payload "text") evs)
     = string_of (ContentBlock.text b)
     /\ (truthy_string (ContentBlock.text b) = false ->
         concat_strings (payloads (block_payload "thinking") evs)
         = string_of (ContentBlock.thinking b))
     /\ (truthy_string (ContentBlock.text b) = false ->
         truthy_string (ContentBlock.thinking b) = false ->
         concat_strings (payloads (block_payload "data") evs)
         = string_of (ContentBlock.data b)))
  /\ (forall s,
        Message.content m = Some (Message.Text s) ->
        Message.content_blocks m = None ->
        concat_strings
          (payloads content_payload
             (filter (of_choice i) (streamChunkArray_of ANTHROPIC now r p)))
        = s).
Proof.
  intros Hch Hm. split.
  - intros bs j b Hbs Hb evs. subst evs.
    rewrite (filter_of_block _ _ _ _ i ch m bs j b Hch Hm Hbs Hb).
    rewrite text_payloads_block, thinking_payloads_block, data_payloads_block.
    destruct (truthy_string (ContentBlock.text b)) eqn:Et.
    { split; [apply concat_slices_all|]. split; discriminate. }
    split; [symmetry; now apply falsy_string_of|].
    destruct (truthy_string (ContentBlock.thinking b)) eqn:Eth.
    { split; [intros _; apply concat_slices_all|]. discriminate. }
    split; [intros _; symmetry; now apply falsy_string_of|]. intros _ _.
    destruct (truthy_string (ContentBlock.data b)) eqn:Ed;
      [apply concat_slices_all|symmetry; now apply falsy_string_of].
  - intros s Hs Hbs.
    rewrite (filter_of_choice _ _ _ _ i ch Hch), content_payloads_choice.
    rewrite Hm, Hs, Hbs. apply concat_slices_all.
Qed.

Lemma slices_concat_to_field_witness :
  let out := streamChunkArray_of "anthropic" 1700000000000%Z Sample.response
               "openai" in
  concat_strings (payloads (block_payload "text") (filter (of_block 0 1) out))
  = Sample.long_text
  /\ concat_strings
       (payloads (block_payload "thinking") (filter (of_block 0 0) out))
     = "hmm"
  /\ concat_strings (payloads (block_payload "data") (filter (of_block 0 2) out))
     = "AAAA"
  /\ concat_strings (payloads content_payload (filter (of_choice 1) out))
     = Sample.long_text.
Proof.
  pose proof (slices_concat_to_field "anthropic" 1700000000000%Z Sample.response
                "openai" 0 Sample.blocks_choice _ eq_refl eq_refl) as [H0 _].
  pose proof (slices_concat_to_field "anthropic" 1700000000000%Z Sample.response
                "openai" 1 Sample.flat_choice _ eq_refl eq_refl) as [_ H1].
  intros out. split; [|split; [|split]].
  - exact (proj1 (H0 _ 1 _ eq_refl eq_refl)).
  - exact (proj1 (proj2 (H0 _ 0 _ eq_refl eq_refl)) eq_refl).
  - exact (proj2 (proj2 (H0 _ 2 _ eq_refl eq_refl)) eq_refl eq_refl).
  - exact (H1 _ eq_refl eq_refl).
Defined.

Lemma slices_bounds_all (s : string) :
  Forall (fun w => 1 <= String.length w <= 500) (slices s 0).
Proof. apply (slices_bounds s (String.length s)). lia. Qed.

Lemma slices_count_all (s : string) :
  List.length (slices s 0) = ceil_div_500 (String.length s).
Proof.
  rewrite (slices_count s (String.length s)) by lia.
  unfold ceil_div_500. now rewrite Nat.sub_0_r.
Qed.

(** C2 (amended).  Every slice carried by a chunk has between 1 and 500
    units.  The chunks of a block carry [ceil(L / 500)] slices of the field
    the block is emitted by, [L] its length, and the chunks of a choice on
    the flat-content path carry [ceil(L / 500)] slices of [content]: for
    [L = 0] that is no slice at all, the empty field being skipped. *)
Theorem slice_sizes_and_counts (ANTHROPIC : string) (now : Z)
    (r : Response.t) (p : string) (i : nat) (ch : Choice.t) (m : Message.t) :
  nth_error (Response.choices r) i = Some ch ->
  Choice.message ch = Some m ->
  (forall bs j b,
     Message.content_blocks m = Some bs -> nth_error bs j = Some b ->
     let evs := filter (of_block i j) (streamChunkArray_of ANTHROPIC now r p) in
     Forall (fun w => 1 <= String.length w <= 500)
       (payloads (block_payload "text") evs
        ++ payloads (block_payload "thinking") evs
        ++ payloads (block_payload "data") evs)
     /\ List.length (payloads (block_payload "text") evs)
        = ceil_div_500 (String.length (string_of (ContentBlock.text b)))
     /\ (truthy_string (ContentBlock.text b) = false ->
         List.length (payloads (block_payload "thinking") evs)
         = ceil_div_500 (String.length (string_of (ContentBlock.thinking b))))
     /\ (truthy_string (ContentBlock.text b) = false ->
         truthy_string (ContentBlock.thinking b) = false ->
         List.length (payloads (block_payload "data") evs)
         = ceil_div_500 (String.length (string_of (ContentBlock.data b)))))
  /\ (forall s,
        Message.content m = Some (Message.Text s) ->
        Message.content_blocks m = None ->
        let ws :=
          payloads content_payload
            (filter (of_choice i) (streamChunkArray_of ANTHROPIC now r p)) in
        Forall (fun w => 1 <= String.length w <= 500) ws
        /\ List.length ws = ceil_div_500 (String.length s)).
Proof.
  intros Hch Hm. split.
  - intros bs j b Hbs Hb evs. subst evs.
    rewrite (filter_of_block _ _ _ _ i ch m bs j b Hch Hm Hbs Hb).
    rewrite text_payloads_block, thinking_payloads_block, data_payloads_block.
    destruct (truthy_string (ContentBlock.text b)) eqn:Et.
    { rewrite app_nil_r. split; [apply slices_bounds_all|].
      split; [apply slices_count_all|]. split; discriminate. }
    rewrite (falsy_string_of _ Et). simpl.
    destruct (truthy_string (ContentBlock.thinking b)) eqn:Eth.
    { rewrite app_nil_r. split; [apply slices_bounds_all|].
      split; [reflexivity|]. split; [intros _; apply slices_count_all|].
      discriminate. }
    rewrite (falsy_string_of _ Eth). simpl.
    destruct (truthy_string (ContentBlock.data b)) eqn:Ed.
    { split; [apply slices_bounds_all|]. split; [reflexivity|].
      split; [reflexivity|]. intros _ _. apply slices_count_all. }
    rewrite (falsy_string_of _ Ed). now repeat split.
  - intros s Hs Hbs ws. subst ws.
    rewrite (filter_of_choice _ _ _ _ i ch Hch), content_payloads_choice.
    rewrite Hm, Hs, Hbs. split; [apply slices_bounds_all|apply slices_count_all].
Qed.

Lemma slice_sizes_and_counts_witness :
  let out := streamChunkArray_of "anthropic" 1700000000000%Z Sample.response
               "openai" in
  (Forall (fun w => 1 <= String.length w <= 500)
     (payloads (block_payload "text") (filter (of_block 0 1) out)
      ++ payloads (block_payload "thinking") (filter (of_block 0 1) out)
      ++ payloads (block_payload "data") (filter (of_block 0 1) out))
   /\ List.length (payloads (block_payload "text") (filter (of_block 0 1) out))
      = ceil_div_500 (String.length Sample.long_text))
  /\ (Forall (fun w => 1 <= String.length w <= 500)
        (payloads content_payload (filter (of_choice 1) out))
      /\ List.length (payloads content_payload (filter (of_choice 1) out))
         = ceil_div_500 (String.length Sample.long_text)).
Proof.
  pose proof (slice_sizes_and_counts "anthropic" 1700000000000%Z Sample.response
                "openai" 0 Sample.blocks_choice _ eq_refl eq_refl) as [H0 _].
  pose proof (slice_sizes_and_counts "anthropic" 1700000000000%Z Sample.response
                "openai" 1 Sample.flat_choice _ eq_refl eq_refl) as [_ H1].
  intros out. split.
  - destruct (H0 _ 1 _ eq_refl eq_refl) as (Hb & Hn & _). exact (conj Hb Hn).
  - exact (H1 _ eq_refl eq_refl).
Defined.

(** C2, as stated, fails: a text block whose [text] is the empty string
    yields no chunk, and a flat [content] that is the empty string yields no
    chunk carrying content, where the claim has one chunk with an empty
    slice. *)
Lemma empty_field_yields_no_slice :
  let out := streamChunkArray_of "anthropic" 1700000000000%Z
               Sample.empty_fields_response "openai" in
  List.length (filter (of_block 0 0) out) <> 1
  /\ List.length (payloads (block_payload "text") (filter (of_block 0 0) out))
     <> 1
  /\ List.length (payloads content_payload (filter (of_choice 1) out)) <> 1.
Proof. vm_compute. repeat split; discriminate. Qed.

(** ** The template and the usage object *)

Lemma has_app (k : string) (a b : props) :
  has k (a ++ b) = has k a || has k b.
Proof.
  induction a as [|[k' v] a IH]; simpl; [reflexivity|].
  now destruct (String.eqb k k').
Qed.

Lemma get_app (k : string) (a b : props) :
  get k (a ++ b) = if has k a then get k a else get k b.
Proof.
  induction a as [|[k' v] a IH]; simpl; [reflexivity|].
  now destruct (String.eqb k k').
Qed.

Lemma usage_object_eq (ANTHROPIC provider : string) (u : Usage.t) :
  usage_object ANTHROPIC provider u =
  (if truthy_number (Usage.completion_tokens u)
   then [("completion_tokens", of_number (Usage.completion_tokens u))]
   else [])
  ++ (if truthy_number (Usage.prompt_tokens u)
      then [("prompt_tokens", of_number (Usage.prompt_tokens u))] else [])
  ++ (if truthy_number
           (total_tokens_of (Usage.prompt_tokens u) (Usage.completion_tokens u))
      then [("total_tokens",
             of_number (total_tokens_of (Usage.prompt_tokens u)
                          (Usage.completion_tokens u)))]
      else [])
  ++ (if shouldSendCacheUsage ANTHROPIC provider
           (Usage.cache_read_input_tokens u)
           (Usage.cache_creation_input_tokens u)
      then [("cache_read_input_tokens", Usage.cache_read_input_tokens u);
            ("cache_creation_input_tokens",
             Usage.cache_creation_input_tokens u)]
      else [])
  ++ (if truthy_number (Usage.num_search_queries u)
      then [("num_search_queries", of_number (Usage.num_search_queries u))]
      else []).
Proof.
  unfold usage_object.
  destruct (truthy_number (Usage.completion_tokens u));
    destruct (truthy_number (Usage.prompt_tokens u));
    destruct (truthy_number
                (total_tokens_of (Usage.prompt_tokens u)
                   (Usage.completion_tokens u)));
    destruct (shouldSendCacheUsage ANTHROPIC provider
                (Usage.cache_read_input_tokens u)
                (Usage.cache_creation_input_tokens u));
    destruct (truthy_number (Usage.num_search_queries u));
    reflexivity.
Qed.

Lemma streamChunkTemplate_eq (ANTHROPIC : string) (now : Z) (r : Response.t)
    (p : string) :
  streamChunkTemplate ANTHROPIC now r p =
  [("id", Str (Response.id r));
   ("object", Str "chat.completion.chunk");
   ("created", Number now);
   ("model",
    if truthy_string (Response.model r)
    then of_string (Response.model r) else Str EmptyString);
   ("system_fingerprint",
    if truthy_string (Response.system_fingerprint r)
    then of_string (Response.system_fingerprint r) else Null);
   ("provider", Str p);
   ("usage", Object (usage_object ANTHROPIC p (usage_or_empty r)))]
  ++ match Response.citations r with
     | Some l => [("citations", Array (map Str l))]
     | None => []
     end.
Proof.
  unfold streamChunkTemplate.
  destruct (Response.citations r); reflexivity.
Qed.

Lemma chunk_of_streamChunkTemplate (ANTHROPIC : string) (now : Z)
    (r : Response.t) (p : string) (choice : list member) :
  chunk_of (streamChunkTemplate ANTHROPIC now r p) choice =
  Data (streamChunkTemplate ANTHROPIC now r p
        ++ [("choices", Array [obj choice])]).
Proof.
  rewrite streamChunkTemplate_eq. unfold chunk_of.
  destruct (Response.citations r); reflexivity.
Qed.

Lemma envelope_streamChunkTemplate (ANTHROPIC : string) (now : Z)
    (r : Response.t) (p : string) (v : value) :
  envelope (streamChunkTemplate ANTHROPIC now r p ++ [("choices", v)])
  = streamChunkTemplate ANTHROPIC now r p.
Proof.
  rewrite streamChunkTemplate_eq.
  destruct (Response.citations r); reflexivity.
Qed.

(** Every chunk of a choice is the template with a [choices] array of one
    element. *)
Lemma block_chunks_from_template t i j b :
  Forall (fun c => exists choice, c = chunk_of t choice) (block_chunks t i j b).
Proof.
  rewrite block_chunks_eq.
  destruct (truthy_string (ContentBlock.text b)).
  { apply Forall_map, Forall_forall. intros; eexists; reflexivity. }
  destruct (truthy_string (ContentBlock.thinking b)).
  { apply Forall_app. split.
    - apply Forall_map, Forall_forall. intros; eexists; reflexivity.
    - apply Forall_cons; [eexists; reflexivity | apply Forall_nil]. }
  destruct (truthy_string (ContentBlock.data b)); [|apply Forall_nil].
  apply Forall_map, Forall_forall. intros; eexists; reflexivity.
Qed.

Lemma choice_chunks_from_template t i ch :
  Forall (fun c => exists choice, c = chunk_of t choice) (choice_chunks t i ch).
Proof.
  rewrite choice_chunks_eq. repeat (apply Forall_app; split).
  - rewrite choice_block_chunks_eq.
    destruct (Choice.message ch) as [m|]; [|apply Forall_nil].
    destruct (Message.content_blocks m) as [bs|]; [|apply Forall_nil].
    apply Forall_flat_map_entries. intros; apply block_chunks_from_template.
  - rewrite choice_tool_chunks_eq.
    destruct (Choice.message ch) as [m|]; [|apply Forall_nil].
    destruct (Message.tool_calls m) as [tcs|]; [|apply Forall_nil].
    apply Forall_flat_map_entries. intros k tc. rewrite tool_call_chunks_eq.
    apply Forall_cons; [eexists; reflexivity|].
    apply Forall_cons; [eexists; reflexivity | apply Forall_nil].
  - rewrite choice_content_chunks_eq.
    destruct (Choice.message ch) as [m|]; [|apply Forall_nil].
    destruct (Message.content m) as [[s|l]|]; try apply Forall_nil.
    destruct (Message.content_blocks m); [apply Forall_nil|].
    apply Forall_map, Forall_forall. intros; eexists; reflexivity.
  - apply Forall_cons; [eexists; reflexivity | apply Forall_nil].
Qed.

Lemma output_from_template (ANTHROPIC : string) (now : Z) (r : Response.t)
    (p : string) (c : chunk) :
  In c (streamChunkArray_of ANTHROPIC now r p) ->
  c = DONE
  \/ exists choice,
       c = Data (streamChunkTemplate ANTHROPIC now r p
                 ++ [("choices", Array [obj choice])]).
Proof.
  rewrite streamChunkArray_of_eq. intros H. apply in_app_or in H.
  destruct H as [H|[H|[]]]; [right|now left].
  apply in_flat_map in H. destruct H as ([i ch] & _ & H).
  pose proof (choice_chunks_from_template
                (streamChunkTemplate ANTHROPIC now r p) i ch) as F.
  rewrite Forall_forall in F. destruct (F c H) as (choice & ->).
  exists choice. apply chunk_of_streamChunkTemplate.
Qed.

Ltac usage_cases ANTHROPIC p u :=
  rewrite (usage_object_eq ANTHROPIC p u);
  destruct (truthy_number (Usage.completion_tokens u));
  destruct (truthy_number (Usage.prompt_tokens u));
  destruct (truthy_number
              (total_tokens_of (Usage.prompt_tokens u)
                 (Usage.completion_tokens u)));
  destruct (shouldSendCacheUsage ANTHROPIC p
              (Usage.cache_read_input_tokens u)
              (Usage.cache_creation_input_tokens u));
  destruct (truthy_number (Usage.num_search_queries u));
  try reflexivity.



Lemma has_cache_read (ANTHROPIC p : string) (u : Usage.t) :
  has "cache_read_input_tokens" (usage_object ANTHROPIC p u)
  = shouldSendCacheUsage ANTHROPIC p (Usage.cache_read_input_tokens u)
      (Usage.cache_creation_input_tokens u).
Proof. usage_cases ANTHROPIC p u. Qed.

Lemma has_cache_creation (ANTHROPIC p : string) (u : Usage.t) :
  has "cache_creation_input_tokens" (usage_object ANTHROPIC p u)
  = shouldSendCacheUsage ANTHROPIC p (Usage.cache_read_input_tokens u)
      (Usage.cache_creation_input_tokens u).
Proof. usage_cases ANTHROPIC p u. Qed.

Lemma get_cache_read (ANTHROPIC p : string) (u : Usage.t) :
  get "cache_read_input_tokens" (usage_object ANTHROPIC p u)
  = if shouldSendCacheUsage ANTHROPIC p (Usage.cache_read_input_tokens u)
         (Usage.cache_creation_input_tokens u)
    then Usage.cache_read_input_tokens u else Undefined.
Proof. usage_cases ANTHROPIC p u. Qed.

Lemma get_cache_creation (ANTHROPIC p : string) (u : Usage.t) :
  get "cache_creation_input_tokens" (usage_object ANTHROPIC p u)
  = if shouldSendCacheUsage ANTHROPIC p (Usage.cache_read_input_tokens u)
         (Usage.cache_creation_input_tokens u)
    then Usage.cache_creation_input_tokens u else Undefined.
Proof. usage_cases ANTHROPIC p u. Qed.

Lemma output_usage (ANTHROPIC : string) (now : Z) (r : Response.t)
    (p : string) (o : props) :
  In (Data o) (streamChunkArray_of ANTHROPIC now r p) ->
  get "usage" o = Object (usage_object ANTHROPIC p (usage_or_empty r)).
Proof.
  intros H. apply output_from_template in H.
  destruct H as [H|(choice & H)]; [discriminate|]. injection H as ->.
  now rewrite streamChunkTemplate_eq.
Qed.




(** ** The usage object *)




(** ** The envelope *)

(** C9.  Every chunk object of a response but the sentinel is the template
    of that response followed by [choices]: its envelope is the template,
    whose [id], [model] (the empty string when absent), [system_fingerprint]
    ([null] when absent), [provider], [created], [usage] and [citations]
    (when present) are computed once, from the response, the provider and
    the clock. *)
Theorem shared_envelope (ANTHROPIC : string) (now : Z) (r : Response.t)
    (p : string) :
  let t := streamChunkTemplate ANTHROPIC now r p in
  (forall o,
     In (Data o) (streamChunkArray_of ANTHROPIC now r p) ->
     envelope o = t /\ exists choice, o = t ++ [("choices", Array [choice])])
  /\ keys t
     = ["id"; "object"; "created"; "model"; "system_fingerprint"; "provider";
        "usage"]
       ++ (if truthy_object (Response.citations r) then ["citations"] else [])
  /\ get "id" t = Str (Response.id r)
  /\ get "model" t
     = Str (if truthy_string (Response.model r)
            then string_of (Response.model r) else EmptyString)
  /\ get "system_fingerprint" t
     = (if truthy_string (Response.system_fingerprint r)
        then Str (string_of (Response.system_fingerprint r)) else Null)
  /\ get "provider" t = Str p
  /\ get "created" t = Number now
  /\ get "usage" t = Object (usage_object ANTHROPIC p (usage_or_empty r))
  /\ get "citations" t
     = match Response.citations r with
       | Some l => Array (map Str l)
       | None => Undefined
       end.
Proof.
  intros t. split.
  - intros o H. apply output_from_template in H.
    destruct H as [H|(choice & H)]; [discriminate|]. injection H as ->.
    split; [apply envelope_streamChunkTemplate|]. now eexists.
  - subst t. rewrite streamChunkTemplate_eq.
    destruct (Response.citations r); simpl;
      (repeat split;
       [now destruct (Response.model r) as [[|a s]|]
       |now destruct (Response.system_fingerprint r) as [[|a s]|]]).
Qed.

Lemma shared_envelope_witness :
  let t := streamChunkTemplate "anthropic" 1700000000000%Z Sample.response
             "openai" in
  let o := t ++ [("choices",
                  Array [obj [Field "index" (index_value 1);
                              Field "delta" (obj []);
                              Field "finish_reason" (Str "stop")]])] in
  envelope o = t /\ exists choice, o = t ++ [("choices", Array [choice])].
Proof.
  intros t o.
  apply (proj1 (shared_envelope "anthropic" 1700000000000%Z Sample.response
                  "openai")).
  apply (nth_error_In _ 12). vm_compute. reflexivity.
Defined.

(** ** The sentinel *)

Lemma render_Data_not_sentinel (o : props) : render (Data o) <> sentinel.
Proof. unfold render, JSON_stringify. simpl. discriminate. Qed.

Lemma output_init (ANTHROPIC : string) (now : Z) (r : Response.t) (p : string) :
  exists chunks,
    streamChunkArray_of ANTHROPIC now r p = chunks ++ [DONE]
    /\ Forall (fun c => exists o, c = Data o) chunks
    /\ (Response.choices r = [] -> chunks = []).
Proof.
  rewrite streamChunkArray_of_eq. eexists. split; [reflexivity|]. split.
  - apply Forall_flat_map_entries. intros i ch.
    eapply Forall_impl; [|apply choice_chunks_from_template].
    intros c (choice & ->). now eexists.
  - now intros ->.
Qed.

(** C6.  The output ends with the string [data: [DONE]] followed by two
    newlines, no other element of it is that string, and it is the only
    element when the response has no choice. *)
Theorem sentinel_last_once (ANTHROPIC : string) (now : Z) (r : Response.t)
    (p : string) :
  let out := OpenAIChatCompleteJSONToStreamResponseTransform ANTHROPIC now r p in
  (exists events, out = events ++ [sentinel] /\ ~ In sentinel events)
  /\ last out EmptyString = sentinel
  /\ count_occ string_dec out sentinel = 1
  /\ (Response.choices r = [] -> out = [sentinel]).
Proof.
  intros out. subst out. unfold OpenAIChatCompleteJSONToStreamResponseTransform.
  destruct (output_init ANTHROPIC now r p) as (chunks & -> & Hdata & Hnil).
  rewrite map_app. simpl.
  assert (Hnot : ~ In sentinel (map render chunks)).
  { intros Hin. apply in_map_iff in Hin. destruct Hin as (c & Hc & Hin).
    rewrite Forall_forall in Hdata. destruct (Hdata c Hin) as (o & ->).
    now apply render_Data_not_sentinel in Hc. }
  split; [now eexists|]. split; [apply last_last|]. split.
  - rewrite count_occ_app. simpl.
    rewrite (proj1 (count_occ_not_In string_dec _ _) Hnot).
    now destruct (string_dec sentinel sentinel).
  - intros H. now rewrite (Hnil H).
Qed.

Lemma sentinel_last_once_witness :
  OpenAIChatCompleteJSONToStreamResponseTransform "anthropic" 1700000000000%Z
    Sample.no_choices_response "openai" = [sentinel].
Proof.
  apply (sentinel_last_once "anthropic" 1700000000000%Z
           Sample.no_choices_response "openai").
  reflexivity.
Defined.

(** ** Order within a choice *)

(** C7.  The chunks of choice [i] stand together in the output, in the
    order: chunks of content blocks, chunks of tool calls, chunks of flat
    content, one finish chunk.  The finish chunk is there whatever the
    message holds; its delta is [{}] and its [finish_reason] is that of the
    choice; no other chunk of the choice is a finish chunk. *)
Theorem choice_chunks_order (ANTHROPIC : string) (now : Z) (r : Response.t)
    (p : string) (i : nat) (ch : Choice.t) :
  nth_error (Response.choices r) i = Some ch ->
  let t := streamChunkTemplate ANTHROPIC now r p in
  let out := streamChunkArray_of ANTHROPIC now r p in
  exists pre blocks tools words post,
    out = pre ++ (blocks ++ tools ++ words ++ [finish_chunk t i ch]) ++ post
    /\ Forall (fun c => of_choice i c = false) pre
    /\ Forall (fun c => of_choice i c = false) post
    /\ Forall (fun c => of_choice i c = true
                        /\ is_content_block_chunk c = true
                        /\ is_tool_call_chunk c = false
                        /\ is_finish_chunk c = false) blocks
    /\ Forall (fun c => of_choice i c = true
                        /\ is_content_block_chunk c = false
                        /\ is_tool_call_chunk c = true
                        /\ is_finish_chunk c = false) tools
    /\ Forall (fun c => of_choice i c = true
                        /\ is_content_block_chunk c = false
                        /\ is_tool_call_chunk c = false
                        /\ is_finish_chunk c = false) words
    /\ of_choice i (finish_chunk t i ch) = true
    /\ delta_of (finish_chunk t i ch) = Object []
    /\ field "finish_reason" (chunk_choice (finish_chunk t i ch))
       = of_string (Choice.finish_reason ch)
    /\ filter is_finish_chunk (filter (of_choice i) out)
       = [finish_chunk t i ch].
Proof.
  intros Hch t out.
  destruct (output_choice_split ANTHROPIC now r p i ch Hch)
    as (pre & post & E & Hpre & Hpost).
  fold t in E. fold out in E.
  assert (Hb : Forall (fun c => of_choice i c = true
                                /\ is_content_block_chunk c = true
                                /\ is_tool_call_chunk c = false
                                /\ is_finish_chunk c = false)
                 (choice_block_chunks t i ch)).
  { eapply Forall_impl; [|apply choice_block_chunks_shape].
    intros c (j & Hi & _ & _ & Hcb & Htc & Hf & _). unfold of_choice.
    rewrite Hi, at_index_same. auto. }
  assert (Ht : Forall (fun c => of_choice i c = true
                                /\ is_content_block_chunk c = false
                                /\ is_tool_call_chunk c = true
                                /\ is_finish_chunk c = false)
                 (choice_tool_chunks t i ch)).
  { eapply Forall_impl; [|apply choice_tool_chunks_shape].
    intros c (k & Hi & _ & _ & Hcb & Htc & Hf & _). unfold of_choice.
    rewrite Hi, at_index_same. auto. }
  assert (Hw : Forall (fun c => of_choice i c = true
                                /\ is_content_block_chunk c = false
                                /\ is_tool_call_chunk c = false
                                /\ is_finish_chunk c = false)
                 (choice_content_chunks t i ch)).
  { eapply Forall_impl; [|apply choice_content_chunks_shape].
    intros c (Hi & _ & _ & Hcb & Htc & Hf & _). unfold of_choice.
    rewrite Hi, at_index_same. auto. }
  exists pre, (choice_block_chunks t i ch), (choice_tool_chunks t i ch),
    (choice_content_chunks t i ch), post.
  rewrite <- choice_chunks_eq.
  split; [exact E|]. split; [exact Hpre|]. split; [exact Hpost|].
  split; [exact Hb|]. split; [exact Ht|]. split; [exact Hw|].
  split; [observe; apply Nat.eqb_refl|].
  split; [now observe|]. split; [now observe|].
  unfold out. rewrite (filter_of_choice ANTHROPIC now r p i ch Hch).
  fold t. rewrite choice_chunks_eq, !filter_app.
  rewrite (filter_none _ (choice_block_chunks t i ch))
    by (eapply Forall_impl; [|exact Hb]; now intros c (_ & _ & _ & ?)).
  rewrite (filter_none _ (choice_tool_chunks t i ch))
    by (eapply Forall_impl; [|exact Ht]; now intros c (_ & _ & _ & ?)).
  rewrite (filter_none _ (choice_content_chunks t i ch))
    by (eapply Forall_impl; [|exact Hw]; now intros c (_ & _ & _ & ?)).
  simpl. now replace (is_finish_chunk (finish_chunk t i ch)) with true
    by (symmetry; apply finish_chunk_has_shape).
Qed.

Lemma choice_chunks_order_witness :
  let t := streamChunkTemplate "anthropic" 1700000000000%Z Sample.bare_response
             "openai" in
  let out := streamChunkArray_of "anthropic" 1700000000000%Z
               Sample.bare_response "openai" in
  delta_of (finish_chunk t 0 Sample.bare_choice) = Object []
  /\ filter is_finish_chunk (filter (of_choice 0) out)
     = [finish_chunk t 0 Sample.bare_choice].
Proof.
  intros t out.
  destruct (choice_chunks_order "anthropic" 1700000000000%Z Sample.bare_response
              "openai" 0 Sample.bare_choice eq_refl)
    as (pre & blocks & tools & words & post & _ & _ & _ & _ & _ & _ & _
        & Hd & _ & Hf).
  exact (conj Hd Hf).
Defined.

(** ** Where the chunks of a block and of a tool call stand *)

Section Position.
Variable ANTHROPIC : string.
Variables (now : Z) (r : Response.t) (p : string).

Let template := streamChunkTemplate ANTHROPIC now r p.
Let out := streamChunkArray_of ANTHROPIC now r p.

Lemma output_block_split (i : nat) (ch : Choice.t) (m : Message.t)
    (bs : list ContentBlock.t) (j : nat) (b : ContentBlock.t) :
  nth_error (Response.choices r) i = Some ch ->
  Choice.message ch = Some m -> Message.content_blocks m = Some bs ->
  nth_error bs j = Some b ->
  exists pre post, out = pre ++ block_chunks template i j b ++ post.
Proof.
  intros Hch Hm Hbs Hb.
  destruct (output_choice_split ANTHROPIC now r p i ch Hch)
    as (pre & post & E & _ & _).
  fold template in E. fold out in E.
  rewrite choice_chunks_eq, choice_block_chunks_eq, Hm, Hbs in E.
  destruct (entries_split (block_chunks template i) block_index) with
    (l := bs) (i := j) (x := b) as (pre' & post' & E' & _ & _).
  { intros j' b'. eapply Forall_impl; [|apply block_chunks_shape].
    intros c Hc. apply Hc. }
  { exact Hb. }
  rewrite E' in E.
  exists (pre ++ pre'),
    (post' ++ choice_tool_chunks template i ch
     ++ choice_content_chunks template i ch
     ++ [finish_chunk template i ch] ++ post).
  rewrite E. now rewrite <- !app_assoc.
Qed.

Lemma output_tool_call_split (i : nat) (ch : Choice.t) (m : Message.t)
    (tcs : list ToolCall.t) (k : nat) (tc : ToolCall.t) :
  nth_error (Response.choices r) i = Some ch ->
  Choice.message ch = Some m -> Message.tool_calls m = Some tcs ->
  nth_error tcs k = Some tc ->
  exists pre post, out = pre ++ tool_call_chunks template i k tc ++ post.
Proof.
  intros Hch Hm Htcs Htc.
  destruct (output_choice_split ANTHROPIC now r p i ch Hch)
    as (pre & post & E & _ & _).
  fold template in E. fold out in E.
  rewrite choice_chunks_eq, choice_tool_chunks_eq, Hm, Htcs in E.
  destruct (entries_split (tool_call_chunks template i) tool_call_index) with
    (l := tcs) (i := k) (x := tc) as (pre' & post' & E' & _ & _).
  { intros k' tc'. eapply Forall_impl; [|apply tool_call_chunks_shape].
    intros c Hc. apply Hc. }
  { exact Htc. }
  rewrite E' in E.
  exists (pre ++ choice_block_chunks template i ch ++ pre'),
    (post' ++ choice_content_chunks template i ch
     ++ [finish_chunk template i ch] ++ post).
  rewrite E. now rewrite <- !app_assoc.
Qed.

End Position.

(** ** Tool calls *)

(** C8.  Each tool call [k] of choice [i] gives two chunks, next to each
    other in the output and the only ones of that tool call: first the one
    whose delta has [content: null] and
    [tool_calls: [{index: k, id, type: "function", function: {name, arguments: ""}}]],
    then the one whose delta has
    [tool_calls: [{index: k, function: {arguments}}]] with the whole
    arguments string. *)
Theorem tool_call_two_chunks (ANTHROPIC : string) (now : Z) (r : Response.t)
    (p : string) (i : nat) (ch : Choice.t) (m : Message.t)
    (tcs : list ToolCall.t) (k : nat) (tc : ToolCall.t) :
  nth_error (Response.choices r) i = Some ch ->
  Choice.message ch = Some m -> Message.tool_calls m = Some tcs ->
  nth_error tcs k = Some tc ->
  let out := streamChunkArray_of ANTHROPIC now r p in
  exists name_chunk arguments_chunk,
    filter (of_tool_call i k) out = [name_chunk; arguments_chunk]
    /\ (exists pre post, out = pre ++ [name_chunk; arguments_chunk] ++ post)
    /\ field "tool_calls" (delta_of name_chunk)
       = Array [Object [("index", Number (Z.of_nat k));
                        ("id", Str (ToolCall.id tc));
                        ("type", Str "function");
                        ("function",
                         Object [("name",
                                  Str (ToolCall.name (ToolCall.function tc)));
                                 ("arguments", Str EmptyString)])]]
    /\ field "content" (delta_of name_chunk) = Null
    /\ field "tool_calls" (delta_of arguments_chunk)
       = Array [Object [("index", Number (Z.of_nat k));
                        ("function",
                         Object [("arguments",
                                  Str (ToolCall.arguments
                                         (ToolCall.function tc)))])]].
Proof.
  intros Hch Hm Htcs Htc out.
  exists (tool_name_chunk (streamChunkTemplate ANTHROPIC now r p) i k tc),
    (tool_arguments_chunk (streamChunkTemplate ANTHROPIC now r p) i k tc).
  split.
  { unfold out.
    now rewrite (filter_of_tool_call ANTHROPIC now r p i ch m tcs k tc). }
  split.
  { now apply (output_tool_call_split ANTHROPIC now r p i ch m tcs k tc). }
  split; [now observe|]. split; now observe.
Qed.

Lemma tool_call_two_chunks_witness :
  let out := streamChunkArray_of "anthropic" 1700000000000%Z Sample.response
               "openai" in
  exists name_chunk arguments_chunk,
    filter (of_tool_call 0 0) out = [name_chunk; arguments_chunk]
    /\ (exists pre post, out = pre ++ [name_chunk; arguments_chunk] ++ post)
    /\ field "tool_calls" (delta_of name_chunk)
       = Array [Object [("index", Number (Z.of_nat 0));
                        ("id", Str (ToolCall.id Sample.weather_call));
                        ("type", Str "function");
                        ("function",
                         Object [("name",
                                  Str (ToolCall.name
                                         (ToolCall.function Sample.weather_call)));
                                 ("arguments", Str EmptyString)])]]
    /\ field "content" (delta_of name_chunk) = Null
    /\ field "tool_calls" (delta_of arguments_chunk)
       = Array [Object [("index", Number (Z.of_nat 0));
                        ("function",
                         Object [("arguments",
                                  Str (ToolCall.arguments
                                         (ToolCall.function
                                            Sample.weather_call)))])]].
Proof.
  exact (tool_call_two_chunks "anthropic" 1700000000000%Z Sample.response
           "openai" 0 Sample.blocks_choice _ _ 0 Sample.weather_call
           eq_refl eq_refl eq_refl eq_refl).
Defined.

(** ** Thinking blocks *)

Lemma slices_nonempty (s : string) :
  0 < String.length s -> slices s 0 <> [].
Proof.
  intros H. rewrite slices_step.
  apply Nat.ltb_lt in H. now rewrite H.
Qed.

Lemma truthy_string_length (s : option string) :
  truthy_string s = true -> 0 < String.length (string_of s).
Proof. destruct s as [[|a s]|]; simpl; try discriminate. lia. Qed.

(** C5 (amended).  A content block emitted by its [thinking] field (its
    [text] empty or absent, its [thinking] not empty) gives its thinking
    slices and then, next in the output, one more chunk, the only one of the
    block with a [signature]; the delta of that chunk is
    [{role: "assistant", content_blocks: [{index: j, delta: {signature}}]}],
    with the signature of the block, [undefined] when the block has none. *)
Theorem thinking_signature_chunk (ANTHROPIC : string) (now : Z)
    (r : Response.t) (p : string) (i : nat) (ch : Choice.t) (m : Message.t)
    (bs : list ContentBlock.t) (j : nat) (b : ContentBlock.t) :
  nth_error (Response.choices r) i = Some ch ->
  Choice.message ch = Some m -> Message.content_blocks m = Some bs ->
  nth_error bs j = Some b ->
  truthy_string (ContentBlock.text b) = false ->
  truthy_string (ContentBlock.thinking b) = true ->
  let t := streamChunkTemplate ANTHROPIC now r p in
  let out := streamChunkArray_of ANTHROPIC now r p in
  let thinking_chunks :=
    map (thinking_chunk t i j)
      (slices (string_of (ContentBlock.thinking b)) 0) in
  let trailing := signature_chunk t i j (ContentBlock.signature b) in
  filter (of_block i j) out = thinking_chunks ++ [trailing]
  /\ thinking_chunks <> []
  /\ Forall (fun c => block_payload "thinking" c <> None
                      /\ carries_signature c = false) thinking_chunks
  /\ (exists pre post, out = pre ++ (thinking_chunks ++ [trailing]) ++ post)
  /\ filter carries_signature (filter (of_block i j) out) = [trailing]
  /\ delta_of trailing
     = Object [("role", Str "assistant");
               ("content_blocks",
                Array [Object [("index", Number (Z.of_nat j));
                               ("delta",
                                Object [("signature",
                                         of_string (ContentBlock.signature b))])]])].
Proof.
  intros Hch Hm Hbs Hb Htext Hthinking t out thinking_chunks trailing.
  assert (E : block_chunks t i j b = thinking_chunks ++ [trailing]).
  { rewrite block_chunks_eq, Htext, Hthinking. reflexivity. }
  assert (F : Forall (fun c => block_payload "thinking" c <> None
                               /\ carries_signature c = false)
                thinking_chunks).
  { apply Forall_map, Forall_forall. intros s _. split.
    - now observe.
    - unfold carries_signature. now observe. }
  split.
  { unfold out.
    now rewrite (filter_of_block ANTHROPIC now r p i ch m bs j b), <- E. }
  split.
  { unfold thinking_chunks. intros H. apply map_eq_nil in H.
    now apply slices_nonempty in H; [|apply truthy_string_length]. }
  split; [exact F|]. split.
  { rewrite <- E.
    now apply (output_block_split ANTHROPIC now r p i ch m bs j b). }
  split.
  { unfold out.
    rewrite (filter_of_block ANTHROPIC now r p i ch m bs j b) by assumption.
    fold t. rewrite E, filter_app.
    rewrite (filter_none _ thinking_chunks)
      by (eapply Forall_impl; [|exact F]; now intros c [_ ?]).
    simpl. replace (carries_signature trailing) with true; [reflexivity|].
    unfold carries_signature, trailing. now observe. }
  unfold trailing. now observe.
Qed.

Lemma thinking_signature_chunk_witness :
  let t := streamChunkTemplate "anthropic" 1700000000000%Z Sample.response
             "openai" in
  let out := streamChunkArray_of "anthropic" 1700000000000%Z Sample.response
               "openai" in
  filter carries_signature (filter (of_block 0 0) out)
  = [signature_chunk t 0 0 None]
  /\ delta_of (signature_chunk t 0 0 None)
     = Object [("role", Str "assistant");
               ("content_blocks",
                Array [Object [("index", Number (Z.of_nat 0));
                               ("delta",
                                Object [("signature", of_string None)])]])].
Proof.
  intros t out.
  destruct (thinking_signature_chunk "anthropic" 1700000000000%Z
              Sample.response "openai" 0 Sample.blocks_choice _ _ 0 _
              eq_refl eq_refl eq_refl eq_refl eq_refl eq_refl)
    as (_ & _ & _ & _ & Hs & Hd).
  exact (conj Hs Hd).
Defined.

(** C5, as stated, fails twice.  The delta of the trailing chunk does not
    carry [content_blocks] only: it has a [role] as well.  And a thinking
    block whose [thinking] is the empty string gives no chunk at all, so no
    trailing chunk either, although it has a signature. *)
Lemma signature_delta_has_role :
  (exists c,
     nth_error
       (streamChunkArray_of "anthropic" 1700000000000%Z Sample.response
          "openai") 1 = Some c
     /\ carries_signature c = true
     /\ has_field "role" (delta_of c) = true
     /\ delta_of c
        <> Object [("content_blocks",
                    Array [Object [("index", Number 0);
                                   ("delta",
                                    Object [("signature", Undefined)])]])])
  /\ filter (of_block 0 0)
       (streamChunkArray_of "anthropic" 1700000000000%Z
          Sample.empty_thinking_response "openai") = [].
Proof.
  split; [|reflexivity].
  eexists. split; [vm_compute; reflexivity|].
  vm_compute. split; [reflexivity|]. split; [reflexivity|]. discriminate.
Qed.

(** ** The passthrough *)

(** C10.  The passthrough hands the response to the error transform, with
    the provider [OPEN_AI], if and only if the status is not 200 and the
    response has an [error] property, and then returns what the error
    transform returns; otherwise it returns the response itself. *)
Theorem passthrough_delegation (OPEN_AI : string)
    (OpenAIErrorResponseTransform : props -> string -> props)
    (response : props) (responseStatus : Z) :
  let action :=
    OpenAIChatCompleteResponseTransform_action OPEN_AI response responseStatus in
  let result :=
    OpenAIChatCompleteResponseTransform OPEN_AI OpenAIErrorResponseTransform
      response responseStatus in
  (action = Delegate response OPEN_AI <->
   responseStatus <> 200%Z /\ has "error" response = true)
  /\ (action = Return response <->
      ~ (responseStatus <> 200%Z /\ has "error" response = true))
  /\ (responseStatus <> 200%Z -> has "error" response = true ->
      result = OpenAIErrorResponseTransform response OPEN_AI)
  /\ (~ (responseStatus <> 200%Z /\ has "error" response = true) ->
      result = response).
Proof.
  intros action result. subst action result.
  unfold OpenAIChatCompleteResponseTransform,
    OpenAIChatCompleteResponseTransform_action.
  set (c := negb (Z.eqb responseStatus 200) && has "error" response).
  assert (Hc : c = true <->
               responseStatus <> 200%Z /\ has "error" response = true).
  { unfold c. now rewrite andb_true_iff, negb_true_iff, Z.eqb_neq. }
  destruct c; simpl.
  - assert (H : responseStatus <> 200%Z /\ has "error" response = true)
      by now apply Hc.
    split; [now split|]. split; [split; [discriminate|contradiction]|].
    split; [reflexivity|contradiction].
  - assert (H : ~ (responseStatus <> 200%Z /\ has "error" response = true))
      by (intros H; apply Hc in H; discriminate).
    split; [split; [discriminate|contradiction]|]. split; [now split|].
    split; [intros; exfalso; apply H; now split|reflexivity].
Qed.

Lemma passthrough_delegation_witness :
  OpenAIChatCompleteResponseTransform "openai" Sample.error_transform
    Sample.error_body 401
  = Sample.error_transform Sample.error_body "openai"
  /\ OpenAIChatCompleteResponseTransform "openai" Sample.error_transform
       Sample.error_body 200
     = Sample.error_body.
Proof.
  pose proof (passthrough_delegation "openai" Sample.error_transform
                Sample.error_body 401) as (_ & _ & H & _).
  pose proof (passthrough_delegation "openai" Sample.error_transform
                Sample.error_body 200) as (_ & _ & _ & H').
  split.
  - apply H; [discriminate | reflexivity].
  - apply H'. intros [Hs _]. now apply Hs.
Defined.

(** ** The example of the specification

    One choice whose [content] is 1200 units long, no [content_blocks],
    [finish_reason] [stop]: three chunks with slices of 500, 500 and 200
    units, the finish chunk, the sentinel. *)
Example specification_example :
  let chunks := streamChunkArray_of "anthropic" 1700000000000%Z
                  Sample.flat_response "openai" in
  let out := OpenAIChatCompleteJSONToStreamResponseTransform "anthropic"
               1700000000000%Z Sample.flat_response "openai" in
  List.length out = 5
  /\ map String.length (payloads content_payload chunks) = [500; 500; 200]
  /\ map is_finish_chunk chunks = [false; false; false; true; false]
  /\ nth 4 out EmptyString = sentinel.
Proof. vm_compute. repeat split. Qed.

(** ** The forms of the chunks *)

Lemma block_chunks_form t i ch j b :
  Forall (chunk_form t i ch) (block_chunks t i j b).
Proof.
  rewrite block_chunks_eq.
  destruct (truthy_string (ContentBlock.text b)).
  { apply Forall_map, Forall_forall. intros; constructor. }
  destruct (truthy_string (ContentBlock.thinking b)).
  { apply Forall_app. split.
    - apply Forall_map, Forall_forall. intros; constructor.
    - apply Forall_cons; [constructor | apply Forall_nil]. }
  destruct (truthy_string (ContentBlock.data b)); [|apply Forall_nil].
  apply Forall_map, Forall_forall. intros; constructor.
Qed.

Lemma choice_chunks_form t i ch :
  Forall (chunk_form t i ch) (choice_chunks t i ch).
Proof.
  rewrite choice_chunks_eq. repeat (apply Forall_app; split).
  - rewrite choice_block_chunks_eq.
    destruct (Choice.message ch) as [m|]; [|apply Forall_nil].
    destruct (Message.content_blocks m) as [bs|]; [|apply Forall_nil].
    apply Forall_flat_map_entries. intros; apply block_chunks_form.
  - rewrite choice_tool_chunks_eq.
    destruct (Choice.message ch) as [m|]; [|apply Forall_nil].
    destruct (Message.tool_calls m) as [tcs|]; [|apply Forall_nil].
    apply Forall_flat_map_entries. intros k tc. rewrite tool_call_chunks_eq.
    apply Forall_cons; [constructor|].
    apply Forall_cons; [constructor | apply Forall_nil].
  - rewrite choice_content_chunks_eq.
    destruct (Choice.message ch) as [m|]; [|apply Forall_nil].
    destruct (Message.content m) as [[s|l]|]; try apply Forall_nil.
    destruct (Message.content_blocks m); [apply Forall_nil|].
    apply Forall_map, Forall_forall. intros; constructor.
  - apply Forall_cons; [constructor | apply Forall_nil].
Qed.

Lemma entries_nth_error {A : Type} (l : list A) :
  forall k i x, In (i, x) (combine (seq k (List.length l)) l) ->
  k <= i /\ nth_error l (i - k) = Some x.
Proof.
  induction l as [|y l IH]; intros k i x H; simpl in H; [contradiction|].
  destruct H as [[= <- <-]|H].
  - rewrite Nat.sub_diag. now split.
  - apply IH in H. destruct H as [Hk H]. split; [lia|].
    replace (i - k) with (S (i - S k)) by lia. exact H.
Qed.

Lemma output_form (ANTHROPIC : string) (now : Z) (r : Response.t) (p : string)
    (c : chunk) :
  In c (streamChunkArray_of ANTHROPIC now r p) ->
  c = DONE
  \/ exists i ch,
       nth_error (Response.choices r) i = Some ch
       /\ chunk_form (streamChunkTemplate ANTHROPIC now r p) i ch c.
Proof.
  rewrite streamChunkArray_of_eq. intros H. apply in_app_or in H.
  destruct H as [H|[H|[]]]; [right|now left].
  apply in_flat_map in H. destruct H as ([i ch] & Hin & H).
  apply entries_nth_error in Hin. rewrite Nat.sub_0_r in Hin.
  exists i, ch. split; [apply Hin|].
  pose proof (choice_chunks_form
                (streamChunkTemplate ANTHROPIC now r p) i ch) as F.
  rewrite Forall_forall in F. now apply F.
Qed.

(** ** Roles and choices *)

(** X1.  Every chunk object has a [choices] array of exactly one element.
    The finish chunk of every choice is in the output and its delta is
    [{}]; a chunk of the output is the finish chunk of a choice exactly when
    its delta is [{}], and then its choice entry has a [finish_reason]
    property; on every other chunk the delta has [role: "assistant"] and
    the choice entry has no [finish_reason]. *)
Theorem one_choice_and_role (ANTHROPIC : string) (now : Z) (r : Response.t)
    (p : string) :
  let t := streamChunkTemplate ANTHROPIC now r p in
  let out := streamChunkArray_of ANTHROPIC now r p in
  (forall i ch,
     nth_error (Response.choices r) i = Some ch ->
     In (finish_chunk t i ch) out
     /\ delta_of (finish_chunk t i ch) = Object [])
  /\ (forall o,
        In (Data o) out ->
        (exists choice, get "choices" o = Array [choice])
        /\ (((exists i ch,
                nth_error (Response.choices r) i = Some ch
                /\ Data o = finish_chunk t i ch)
             /\ delta_of (Data o) = Object []
             /\ has_field "finish_reason" (chunk_choice (Data o)) = true)
            \/ (~ (exists i ch, Data o = finish_chunk t i ch)
                /\ delta_of (Data o) <> Object []
                /\ field "role" (delta_of (Data o)) = Str "assistant"
                /\ has_field "finish_reason" (chunk_choice (Data o)) = false))).
Proof.
  intros t out. split.
  - intros i ch Hch. split; [|now observe].
    destruct (output_choice_split ANTHROPIC now r p i ch Hch)
      as (pre & post & E & _ & _).
    unfold out. rewrite E, choice_chunks_eq.
    apply in_or_app. right. apply in_or_app. left.
    apply in_or_app. right. apply in_or_app. right.
    apply in_or_app. right. now left.
  - intros o H. split.
    + apply output_from_template in H.
      destruct H as [H|(choice & H)]; [discriminate|]. injection H as ->.
      exists (obj choice). rewrite streamChunkTemplate_eq.
      destruct (Response.citations r); reflexivity.
    + apply output_form in H.
      destruct H as [H|(i & ch & Hch & H)]; [discriminate|].
      fold t in H. revert H. generalize (Data o). intros c H.
      assert (Hnot : forall c',
                 field "role" (delta_of c') = Str "assistant" ->
                 ~ (exists i' ch', c' = finish_chunk t i' ch')).
      { intros c' Hr (i' & ch' & ->). revert Hr. observe. discriminate. }
      destruct H;
        try (right; split; [apply Hnot; now observe|];
             split; [observe; discriminate|]; split; now observe).
      * right. split; [apply Hnot; rewrite delta_of_content; reflexivity|].
        rewrite delta_of_content.
        split; [discriminate|]. split; [reflexivity|].
        destruct ch as [m f [g|]]; now observe.
      * left. split; [now exists i, ch|]. split; now observe.
Qed.

Lemma one_choice_and_role_witness :
  let t := streamChunkTemplate "anthropic" 1700000000000%Z
             Sample.flat_response "openai" in
  let out := streamChunkArray_of "anthropic" 1700000000000%Z
               Sample.flat_response "openai" in
  In (finish_chunk t 0 Sample.flat_choice) out
  /\ delta_of (finish_chunk t 0 Sample.flat_choice) = Object [].
Proof.
  exact (proj1 (one_choice_and_role "anthropic" 1700000000000%Z
                  Sample.flat_response "openai")
           0 Sample.flat_choice eq_refl).
Defined.

(** ** Grounding metadata *)

(** X2.  Among the chunks of a choice, those of the flat content carry the
    [groundingMetadata] of the choice beside [delta], when the choice has
    one; no other chunk of the choice, the finish chunk included, has a
    [groundingMetadata] property. *)
Theorem grounding_metadata_on_content_chunks (ANTHROPIC : string) (now : Z)
    (r : Response.t) (p : string) (i : nat) (ch : Choice.t) (c : chunk) :
  nth_error (Response.choices r) i = Some ch ->
  In c (filter (of_choice i) (streamChunkArray_of ANTHROPIC now r p)) ->
  (content_payload c <> None ->
   field "groundingMetadata" (chunk_choice c)
   = match Choice.groundingMetadata ch with
     | Some g => Object g
     | None => Undefined
     end
   /\ has_field "groundingMetadata" (chunk_choice c)
      = truthy_object (Choice.groundingMetadata ch))
  /\ (content_payload c = None ->
      has_field "groundingMetadata" (chunk_choice c) = false).
Proof.
  intros Hch Hin. rewrite (filter_of_choice _ _ _ _ i ch Hch) in Hin.
  pose proof (choice_chunks_form
                (streamChunkTemplate ANTHROPIC now r p) i ch) as F.
  rewrite Forall_forall in F. apply F in Hin. clear F.
  destruct Hin;
    try (split; [intros H; exfalso; apply H; now observe | intros _; now observe]).
  split.
  - intros _. destruct ch as [m f [g|]]; split; now observe.
  - intros H. exfalso. revert H. unfold content_payload.
    rewrite delta_of_content. discriminate.
Qed.

Lemma grounding_metadata_on_content_chunks_witness :
  let c :=
    content_chunk
      (streamChunkTemplate "anthropic" 1700000000000%Z
         Edge.grounded_response "google")
      0 Edge.grounded_choice "Paris" in
  field "groundingMetadata" (chunk_choice c)
  = match Choice.groundingMetadata Edge.grounded_choice with
    | Some g => Object g
    | None => Undefined
    end
  /\ has_field "groundingMetadata" (chunk_choice c)
     = truthy_object (Choice.groundingMetadata Edge.grounded_choice).
Proof.
  intros c.
  apply (grounding_metadata_on_content_chunks "anthropic" 1700000000000%Z
           Edge.grounded_response "google" 0 Edge.grounded_choice c
           eq_refl).
  - apply (nth_error_In _ 0). vm_compute. reflexivity.
  - vm_compute. discriminate.
Defined.

(** ** Which field a block is emitted by *)

(** X3.  A block with a non-empty [text] is emitted by its text alone: none
    of its chunks carries a thinking slice, a data slice or a signature,
    whatever its [thinking], [signature] and [data] are.  A block emitted
    by its thinking carries no data slice, and a block whose three fields
    are all empty or absent gives no chunk. *)
Theorem block_dispatch (ANTHROPIC : string) (now : Z) (r : Response.t)
    (p : string) (i : nat) (ch : Choice.t) (m : Message.t)
    (bs : list ContentBlock.t) (j : nat) (b : ContentBlock.t) :
  nth_error (Response.choices r) i = Some ch ->
  Choice.message ch = Some m -> Message.content_blocks m = Some bs ->
  nth_error bs j = Some b ->
  let t := streamChunkTemplate ANTHROPIC now r p in
  let evs := filter (of_block i j) (streamChunkArray_of ANTHROPIC now r p) in
  (truthy_string (ContentBlock.text b) = true ->
   evs = map (text_chunk t i j) (slices (string_of (ContentBlock.text b)) 0)
   /\ payloads (block_payload "thinking") evs = []
   /\ payloads (block_payload "data") evs = []
   /\ filter carries_signature evs = [])
  /\ (truthy_string (ContentBlock.text b) = false ->
      truthy_string (ContentBlock.thinking b) = true ->
      payloads (block_payload "text") evs = []
      /\ payloads (block_payload "data") evs = [])
  /\ (truthy_string (ContentBlock.text b) = false ->
      truthy_string (ContentBlock.thinking b) = false ->
      truthy_string (ContentBlock.data b) = false ->
      evs = []).
Proof.
  intros Hch Hm Hbs Hb t evs. subst evs.
  rewrite (filter_of_block _ _ _ _ i ch m bs j b Hch Hm Hbs Hb). fold t.
  rewrite thinking_payloads_block, data_payloads_block, text_payloads_block.
  rewrite block_chunks_eq.
  split; [|split].
  - intros ->. split; [reflexivity|]. split; [reflexivity|].
    split; [reflexivity|]. apply filter_none, Forall_map, Forall_forall.
    intros s _. unfold carries_signature. now observe.
  - intros -> ->. now split.
  - now intros -> -> ->.
Qed.

Lemma block_dispatch_witness :
  let t := streamChunkTemplate "anthropic" 1700000000000%Z
             Edge.mixed_response "anthropic" in
  let evs := filter (of_block 0 0)
               (streamChunkArray_of "anthropic" 1700000000000%Z
                  Edge.mixed_response "anthropic") in
  evs = map (text_chunk t 0 0)
          (slices (string_of (ContentBlock.text Edge.mixed_block)) 0)
  /\ payloads (block_payload "thinking") evs = []
  /\ payloads (block_payload "data") evs = []
  /\ filter carries_signature evs = [].
Proof.
  intros t evs.
  apply (block_dispatch "anthropic" 1700000000000%Z Edge.mixed_response
           "anthropic" 0 Edge.mixed_choice _ _ 0 Edge.mixed_block
           eq_refl eq_refl eq_refl eq_refl).
  reflexivity.
Defined.

(** ** When the flat content is emitted *)

(** X4.  A choice gives chunks of flat content if and only if its message
    has a [content] that is a non-empty string and has no [content_blocks]:
    a list of content blocks, even an empty one, and a content that is not
    a string both suppress them. *)
Theorem flat_content_emitted_iff (ANTHROPIC : string) (now : Z)
    (r : Response.t) (p : string) (i : nat) (ch : Choice.t) :
  nth_error (Response.choices r) i = Some ch ->
  payloads content_payload
    (filter (of_choice i) (streamChunkArray_of ANTHROPIC now r p)) <> []
  <-> exists m a s,
        Choice.message ch = Some m
        /\ Message.content m = Some (Message.Text (String a s))
        /\ Message.content_blocks m = None.
Proof.
  intros Hch.
  rewrite (filter_of_choice _ _ _ _ i ch Hch), content_payloads_choice.
  destruct (Choice.message ch) as [m|] eqn:Em.
  2:{ split; [now intros H|]. now intros (m & a & s & [=] & _). }
  destruct (Message.content m) as [[s|l]|] eqn:Ec;
    destruct (Message.content_blocks m) as [bs|] eqn:Eb;
    try (split; [now intros H|];
         intros (m' & a & s' & [= <-] & Hc & Hb); congruence).
  destruct s as [|a s].
  - rewrite slices_step. simpl. split; [now intros H|].
    intros (m' & a & s' & [= <-] & Hc & Hb). congruence.
  - split.
    + intros _. now exists m, a, s.
    + intros _. apply slices_nonempty. simpl. lia.
Qed.

Lemma flat_content_emitted_iff_witness :
  payloads content_payload
    (filter (of_choice 1)
       (streamChunkArray_of "anthropic" 1700000000000%Z Edge.mixed_response
          "anthropic")) <> []
  <-> exists m a s,
        Choice.message Edge.shadowed_choice = Some m
        /\ Message.content m = Some (Message.Text (String a s))
        /\ Message.content_blocks m = None.
Proof.
  exact (flat_content_emitted_iff "anthropic" 1700000000000%Z
           Edge.mixed_response "anthropic" 1 Edge.shadowed_choice
           eq_refl).
Defined.

(** ** The slices, one by one *)

Lemma nth_error_slices (s : string) :
  forall k i,
  nth_error (slices s i) k =
  if i + 500 * k <? String.length s
  then Some (substring (i + 500 * k) 500 s) else None.
Proof.
  induction k as [|k IH]; intros i; rewrite slices_step.
  - rewrite Nat.mul_0_r, Nat.add_0_r.
    destruct (i <? String.length s); [|reflexivity].
    unfold slice. now replace (i + 500 - i) with 500 by lia.
  - destruct (i <? String.length s) eqn:E.
    + cbn [nth_error]. rewrite IH.
      now replace (i + 500 + 500 * k) with (i + 500 * S k) by lia.
    + apply Nat.ltb_ge in E.
      destruct (Nat.ltb_spec (i + 500 * S k) (String.length s)); [lia|].
      reflexivity.
Qed.

Lemma nth_error_slices_all (s : string) (k : nat) :
  nth_error (slices s 0) k = slice_at s k.
Proof. now rewrite nth_error_slices. Qed.

Lemma slice_at_empty (s : option string) (k : nat) :
  truthy_string s = false -> slice_at (string_of s) k = None.
Proof.
  intros H. rewrite (falsy_string_of _ H). unfold slice_at.
  now destruct (Nat.ltb_spec (500 * k) (String.length EmptyString)).
Qed.

(** X5.  The [k]-th slice chunk of a field carries the units
    [500 k .. 500 k + 499] of the field, fewer when the field ends before,
    and there is no [k]-th slice chunk when the field has at most [500 k]
    units: for the text, thinking and data of a content block and for the
    flat content. *)
Theorem slice_chunk_windows (ANTHROPIC : string) (now : Z)
    (r : Response.t) (p : string) (i : nat) (ch : Choice.t) (m : Message.t)
    (k : nat) :
  nth_error (Response.choices r) i = Some ch ->
  Choice.message ch = Some m ->
  (forall bs j b,
     Message.content_blocks m = Some bs -> nth_error bs j = Some b ->
     let evs := filter (of_block i j) (streamChunkArray_of ANTHROPIC now r p) in
     nth_error (payloads (block_payload "text") evs) k
     = slice_at (string_of (ContentBlock.text b)) k
     /\ (truthy_string (ContentBlock.text b) = false ->
         nth_error (payloads (block_payload "thinking") evs) k
         = slice_at (string_of (ContentBlock.thinking b)) k)
     /\ (truthy_string (ContentBlock.text b) = false ->
         truthy_string (ContentBlock.thinking b) = false ->
         nth_error (payloads (block_payload "data") evs) k
         = slice_at (string_of (ContentBlock.data b)) k))
  /\ (forall s,
        Message.content m = Some (Message.Text s) ->
        Message.content_blocks m = None ->
        nth_error
          (payloads content_payload
             (filter (of_choice i) (streamChunkArray_of ANTHROPIC now r p))) k
        = slice_at s k).
Proof.
  intros Hch Hm. split.
  - intros bs j b Hbs Hb evs. subst evs.
    rewrite (filter_of_block _ _ _ _ i ch m bs j b Hch Hm Hbs Hb).
    rewrite text_payloads_block, thinking_payloads_block, data_payloads_block.
    destruct (truthy_string (ContentBlock.text b)) eqn:Et.
    { split; [apply nth_error_slices_all|]. split; discriminate. }
    rewrite (slice_at_empty _ k Et).
    split; [now destruct k|].
    destruct (truthy_string (ContentBlock.thinking b)) eqn:Eth.
    { split; [intros _; apply nth_error_slices_all|]. discriminate. }
    rewrite (slice_at_empty _ k Eth).
    split; [now destruct k|]. intros _ _.
    destruct (truthy_string (ContentBlock.data b)) eqn:Ed;
      [apply nth_error_slices_all|].
    rewrite (slice_at_empty _ k Ed). now destruct k.
  - intros s Hs Hbs.
    rewrite (filter_of_choice _ _ _ _ i ch Hch), content_payloads_choice.
    rewrite Hm, Hs, Hbs. apply nth_error_slices_all.
Qed.

Lemma slice_chunk_windows_witness :
  let out := streamChunkArray_of "anthropic" 1700000000000%Z Sample.response
               "openai" in
  nth_error (payloads (block_payload "text") (filter (of_block 0 1) out)) 2
  = slice_at
      (string_of
         (ContentBlock.text
            (ContentBlock.mk (Some "text") (Some Sample.long_text) None None
               None))) 2
  /\ nth_error (payloads content_payload (filter (of_choice 1) out)) 2
     = slice_at Sample.long_text 2.
Proof.
  pose proof (slice_chunk_windows "anthropic" 1700000000000%Z Sample.response
                "openai" 0 Sample.blocks_choice _ 2 eq_refl eq_refl) as [H0 _].
  pose proof (slice_chunk_windows "anthropic" 1700000000000%Z Sample.response
                "openai" 1 Sample.flat_choice _ 2 eq_refl eq_refl) as [_ H1].
  intros out. split.
  - exact (proj1 (H0 _ 1 _ eq_refl eq_refl)).
  - exact (H1 _ eq_refl eq_refl).
Defined.

(** ** The flat mirror of the text blocks *)

Lemma payloads_entries_from {A : Type} (f : chunk -> option string)
    (g : nat -> A -> list chunk) (h : A -> list string)
    (Hg : forall i x, payloads f (g i x) = h x) (l : list A) :
  forall k,
  payloads f (flat_map (fun ix => g (fst ix) (snd ix))
                (combine (seq k (List.length l)) l))
  = flat_map h l.
Proof.
  induction l as [|x l IH]; intros k; simpl; [reflexivity|].
  now rewrite payloads_app, Hg, IH.
Qed.

Lemma concat_strings_app (a b : list string) :
  concat_strings (a ++ b) = (concat_strings a ++ concat_strings b)%string.
Proof.
  induction a as [|x a IH]; simpl; [reflexivity|].
  rewrite IH. clear IH. induction x as [|c x IHx]; simpl; [reflexivity|].
  now rewrite IHx.
Qed.

Lemma concat_strings_flat_map {A : Type} (h : A -> list string) (l : list A) :
  concat_strings (flat_map h l)
  = concat_strings (map (fun x => concat_strings (h x)) l).
Proof.
  induction l as [|x l IH]; simpl; [reflexivity|].
  now rewrite concat_strings_app, IH.
Qed.

Lemma top_content_block t i j b :
  payloads top_content (block_chunks t i j b) =
  if truthy_string (ContentBlock.text b)
  then slices (string_of (ContentBlock.text b)) 0 else [].
Proof.
  rewrite block_chunks_eq. unfold top_content.
  destruct (truthy_string (ContentBlock.text b)).
  { apply payloads_map_some. intros; now observe. }
  destruct (truthy_string (ContentBlock.thinking b)).
  { rewrite payloads_app, payloads_map_none by (intros; now observe).
    apply payloads_none. apply Forall_cons; [now observe | apply Forall_nil]. }
  destruct (truthy_string (ContentBlock.data b)); [|reflexivity].
  apply payloads_map_none. intros; now observe.
Qed.

Lemma top_content_tools t i ch :
  payloads top_content (choice_tool_chunks t i ch) = [].
Proof.
  apply payloads_none. rewrite choice_tool_chunks_eq.
  destruct (Choice.message ch) as [m|]; [|apply Forall_nil].
  destruct (Message.tool_calls m) as [tcs|]; [|apply Forall_nil].
  apply Forall_flat_map_entries. intros k tc. rewrite tool_call_chunks_eq.
  unfold top_content.
  apply Forall_cons; [now observe|].
  apply Forall_cons; [now observe | apply Forall_nil].
Qed.

(** X6.  In a choice with content blocks the strings carried in
    [delta.content], concatenated in the order of the output, are the texts
    of its blocks one after the other: a consumer that reads only
    [delta.content] gets the text blocks and nothing of the thinking, the
    data or the tool calls.  On every chunk that carries a text slice
    [delta.content] is that slice. *)
Theorem content_mirrors_text_blocks (ANTHROPIC : string) (now : Z)
    (r : Response.t) (p : string) (i : nat) (ch : Choice.t) (m : Message.t)
    (bs : list ContentBlock.t) :
  nth_error (Response.choices r) i = Some ch ->
  Choice.message ch = Some m -> Message.content_blocks m = Some bs ->
  let evs := filter (of_choice i) (streamChunkArray_of ANTHROPIC now r p) in
  concat_strings (payloads top_content evs)
  = concat_strings (map (fun b => string_of (ContentBlock.text b)) bs)
  /\ Forall (fun c => forall s, block_payload "text" c = Some s ->
                                top_content c = Some s) evs.
Proof.
  intros Hch Hm Hbs evs. subst evs.
  rewrite (filter_of_choice _ _ _ _ i ch Hch). split.
  - assert (Ec : choice_content_chunks
                   (streamChunkTemplate ANTHROPIC now r p) i ch = []).
    { rewrite choice_content_chunks_eq, Hm, Hbs.
      now destruct (Message.content m) as [[s|l]|]. }
    rewrite choice_chunks_eq, !payloads_app, top_content_tools, Ec.
    rewrite (payloads_none _ [finish_chunk _ i ch])
      by (apply Forall_cons; [unfold top_content; now observe
                             | apply Forall_nil]).
    cbn [payloads flat_map app]. rewrite !app_nil_r.
    rewrite choice_block_chunks_eq, Hm, Hbs. unfold entries.
    rewrite (payloads_entries_from top_content _ _ (top_content_block _ i)).
    rewrite concat_strings_flat_map. f_equal. apply map_ext. intros b.
    destruct (truthy_string (ContentBlock.text b)) eqn:Et;
      [apply concat_slices_all | symmetry; now apply falsy_string_of].
  - pose proof (choice_chunks_form
                  (streamChunkTemplate ANTHROPIC now r p) i ch) as F.
    eapply Forall_impl; [|exact F]. intros c Hc s.
    destruct Hc; unfold top_content; try (now observe).
    destruct ch as [m' f [g|]]; now observe.
Qed.

Lemma content_mirrors_text_blocks_witness :
  let evs := filter (of_choice 0)
               (streamChunkArray_of "anthropic" 1700000000000%Z
                  Edge.mixed_response "anthropic") in
  concat_strings (payloads top_content evs)
  = concat_strings
      (map (fun b => string_of (ContentBlock.text b)) [Edge.mixed_block])
  /\ Forall (fun c => forall s, block_payload "text" c = Some s ->
                                top_content c = Some s) evs.
Proof.
  exact (content_mirrors_text_blocks "anthropic" 1700000000000%Z
           Edge.mixed_response "anthropic" 0 Edge.mixed_choice _ _
           eq_refl eq_refl eq_refl).
Defined.

(** ** Order of the indices *)

Lemma sorted_app {A : Type} (R : A -> A -> Prop) (a b : list A) :
  StronglySorted R a -> StronglySorted R b ->
  (forall x y, In x a -> In y b -> R x y) ->
  StronglySorted R (a ++ b).
Proof.
  induction 1 as [|x a Ha IH Hx]; intros Hb Hab; simpl; [exact Hb|].
  constructor.
  - apply IH; [exact Hb|]. intros; apply Hab; simpl; auto.
  - apply Forall_app. split; [exact Hx|].
    apply Forall_forall. intros y Hy. apply Hab; simpl; auto.
Qed.

Lemma sorted_middle {A : Type} (R : A -> A -> Prop) (l1 l2 l3 : list A)
    (c d : A) :
  StronglySorted R (l1 ++ c :: l2 ++ d :: l3) -> R c d.
Proof.
  induction l1 as [|x l1 IH]; simpl; intros H; inversion_clear H as [|? ? Hs Hf].
  - rewrite Forall_forall in Hf. apply Hf, in_elt.
  - now apply IH.
Qed.

Lemma sorted_same (idx : chunk -> option nat) (i : nat) (l : list chunk) :
  Forall (fun c => idx c = Some i) l ->
  StronglySorted (index_ordered idx) l.
Proof.
  induction 1 as [|c l Hc Hl IH]; constructor; [exact IH|].
  eapply Forall_impl; [|exact Hl]. intros d Hd a b Ha Hb.
  rewrite Hc in Ha. rewrite Hd in Hb. injection Ha as <-. injection Hb as <-.
  apply Nat.le_refl.
Qed.

Lemma sorted_none (idx : chunk -> option nat) (l : list chunk) :
  Forall (fun c => idx c = None) l ->
  StronglySorted (index_ordered idx) l.
Proof.
  induction 1 as [|c l Hc Hl IH]; constructor; [exact IH|].
  apply Forall_forall. intros d _ a b Ha. rewrite Hc in Ha. discriminate.
Qed.

Section Sorted.
Context {A : Type} (g : nat -> A -> list chunk) (idx : chunk -> option nat).
Hypothesis g_idx : forall i x, Forall (fun c => idx c = Some i) (g i x).

Lemma entries_from_range (l : list A) (k : nat) (c : chunk) :
  In c (flat_map (fun ix => g (fst ix) (snd ix))
          (combine (seq k (List.length l)) l)) ->
  exists m, k <= m < k + List.length l /\ idx c = Some m.
Proof.
  intros H. apply in_flat_map in H. destruct H as ([m x] & Hin & H).
  apply in_combine_l, in_seq in Hin. simpl in H.
  pose proof (g_idx m x) as F. rewrite Forall_forall in F.
  exists m. split; [exact Hin | now apply F].
Qed.

Lemma entries_from_sorted (l : list A) :
  forall k,
  StronglySorted (index_ordered idx)
    (flat_map (fun ix => g (fst ix) (snd ix))
       (combine (seq k (List.length l)) l)).
Proof.
  induction l as [|x l IH]; intros k; simpl; [constructor|].
  apply sorted_app; [apply (sorted_same idx k), g_idx | apply IH|].
  intros c d Hc Hd a b Ha Hb.
  pose proof (g_idx k x) as F. rewrite Forall_forall in F.
  rewrite (F c Hc) in Ha. injection Ha as <-.
  apply entries_from_range in Hd. destruct Hd as (m & Hm & Hd).
  rewrite Hd in Hb. injection Hb as <-. lia.
Qed.
End Sorted.

(** X7.  The choice indices read off the output never go down: a chunk of
    a choice comes before every chunk of a later choice, in the order of
    [choices].  Every index read is the position of a choice of the input. *)
Theorem choices_in_input_order (ANTHROPIC : string) (now : Z)
    (r : Response.t) (p : string) :
  let out := streamChunkArray_of ANTHROPIC now r p in
  (forall l1 c l2 d l3 i j,
     out = l1 ++ c :: l2 ++ d :: l3 ->
     choice_index c = Some i -> choice_index d = Some j -> i <= j)
  /\ (forall c i,
        In c out -> choice_index c = Some i ->
        i < List.length (Response.choices r)).
Proof.
  intros out. subst out. rewrite streamChunkArray_of_eq. split.
  - intros l1 c l2 d l3 i j E.
    apply (sorted_middle (index_ordered choice_index) l1 l2 l3 c d).
    rewrite <- E. apply sorted_app.
    + apply entries_from_sorted. intros; apply choice_chunks_index.
    + apply (sorted_none choice_index).
      apply Forall_cons; [reflexivity | apply Forall_nil].
    + intros x y _ [<-|[]] a b _ Hb. discriminate.
  - intros c i Hin Hi. apply in_app_or in Hin.
    destruct Hin as [Hin|[<-|[]]]; [|discriminate].
    apply (entries_from_range (choice_chunks _) choice_index) in Hin.
    + destruct Hin as (m & Hm & E). rewrite E in Hi. injection Hi as <-. lia.
    + intros; apply choice_chunks_index.
Qed.

Lemma choices_in_input_order_witness : 0 <= 1.
Proof.
  pose (t := streamChunkTemplate "anthropic" 1700000000000%Z
               Edge.mixed_response "anthropic").
  apply (proj1 (choices_in_input_order "anthropic" 1700000000000%Z
                  Edge.mixed_response "anthropic")
           [] (text_chunk t 0 0 "answer") [finish_chunk t 0 Edge.mixed_choice]
           (finish_chunk t 1 Edge.shadowed_choice) [DONE] 0 1).
  - vm_compute. reflexivity.
  - vm_compute. reflexivity.
  - vm_compute. reflexivity.
Defined.

(** X8.  Among the chunks of one choice the content-block indices never go
    down, and neither do the tool-call indices: blocks and tool calls are
    emitted in the order of their lists. *)
Theorem blocks_and_tool_calls_in_order (ANTHROPIC : string) (now : Z)
    (r : Response.t) (p : string) (i : nat) (ch : Choice.t) :
  nth_error (Response.choices r) i = Some ch ->
  let evs := filter (of_choice i) (streamChunkArray_of ANTHROPIC now r p) in
  StronglySorted (index_ordered block_index) evs
  /\ StronglySorted (index_ordered tool_call_index) evs.
Proof.
  intros Hch evs. subst evs.
  rewrite (filter_of_choice _ _ _ _ i ch Hch), choice_chunks_eq.
  set (t := streamChunkTemplate ANTHROPIC now r p).
  assert (Hb : forall idx,
             (idx = block_index \/ idx = tool_call_index) ->
             StronglySorted (index_ordered idx) (choice_block_chunks t i ch)).
  { intros idx Hidx. rewrite choice_block_chunks_eq.
    destruct (Choice.message ch) as [m|]; [|constructor].
    destruct (Message.content_blocks m) as [bs|]; [|constructor].
    destruct Hidx as [->| ->].
    - apply entries_from_sorted. intros j b.
      eapply Forall_impl; [|apply block_chunks_shape]. intros c Hc. apply Hc.
    - apply sorted_none, Forall_flat_map_entries. intros j b.
      eapply Forall_impl; [|apply block_chunks_shape]. intros c Hc. apply Hc. }
  assert (Ht : forall idx,
             (idx = block_index \/ idx = tool_call_index) ->
             StronglySorted (index_ordered idx) (choice_tool_chunks t i ch)).
  { intros idx Hidx. rewrite choice_tool_chunks_eq.
    destruct (Choice.message ch) as [m|]; [|constructor].
    destruct (Message.tool_calls m) as [tcs|]; [|constructor].
    destruct Hidx as [->| ->].
    - apply sorted_none, Forall_flat_map_entries. intros k tc.
      eapply Forall_impl; [|apply tool_call_chunks_shape]. intros c Hc.
      apply Hc.
    - apply entries_from_sorted. intros k tc.
      eapply Forall_impl; [|apply tool_call_chunks_shape]. intros c Hc.
      apply Hc. }
  assert (Hrest : forall idx,
             (idx = block_index \/ idx = tool_call_index) ->
             Forall (fun c => idx c = None)
               (choice_content_chunks t i ch ++ [finish_chunk t i ch])).
  { intros idx Hidx. apply Forall_app. split.
    - eapply Forall_impl; [|apply choice_content_chunks_shape].
      intros c Hc. destruct Hidx as [->| ->]; apply Hc.
    - apply Forall_cons; [|apply Forall_nil].
      destruct Hidx as [->| ->]; apply finish_chunk_has_shape. }
  assert (Hcross_block :
            Forall (fun c => block_index c = None) (choice_tool_chunks t i ch)).
  { eapply Forall_impl; [|apply choice_tool_chunks_shape].
    intros c (k & Hc). apply Hc. }
  assert (Hcross_tool :
            Forall (fun c => tool_call_index c = None)
              (choice_block_chunks t i ch)).
  { eapply Forall_impl; [|apply choice_block_chunks_shape].
    intros c (k & Hc). apply Hc. }
  split.
  - apply sorted_app; [apply Hb; now left| |].
    + apply sorted_app; [apply Ht; now left
                        |apply sorted_none, Hrest; now left|].
      intros x y Hx _ a b Ha. rewrite Forall_forall in Hcross_block.
      rewrite (Hcross_block x Hx) in Ha. discriminate.
    + intros x y _ Hy a b _ Hb'. apply in_app_or in Hy.
      destruct Hy as [Hy|Hy].
      * rewrite Forall_forall in Hcross_block.
        rewrite (Hcross_block y Hy) in Hb'. discriminate.
      * pose proof (Hrest block_index (or_introl eq_refl)) as F.
        rewrite Forall_forall in F. rewrite (F y Hy) in Hb'. discriminate.
  - apply sorted_app; [apply Hb; now right| |].
    + apply sorted_app; [apply Ht; now right
                        |apply sorted_none, Hrest; now right|].
      intros x y _ Hy a b _ Hb'.
      pose proof (Hrest tool_call_index (or_intror eq_refl)) as F.
      rewrite Forall_forall in F. rewrite (F y Hy) in Hb'. discriminate.
    + intros x y Hx _ a b Ha. rewrite Forall_forall in Hcross_tool.
      rewrite (Hcross_tool x Hx) in Ha. discriminate.
Qed.

Lemma blocks_and_tool_calls_in_order_witness :
  let evs := filter (of_choice 0)
               (streamChunkArray_of "anthropic" 1700000000000%Z Sample.response
                  "openai") in
  StronglySorted (index_ordered block_index) evs
  /\ StronglySorted (index_ordered tool_call_index) evs.
Proof.
  exact (blocks_and_tool_calls_in_order "anthropic" 1700000000000%Z
           Sample.response "openai" 0 Sample.blocks_choice eq_refl).
Defined.

(** ** The number of chunks *)

Lemma length_entries_from {A B : Type} (g : nat -> A -> list B) (h : A -> nat)
    (Hg : forall i x, List.length (g i x) = h x) (l : list A) :
  forall k,
  List.length (flat_map (fun ix => g (fst ix) (snd ix))
                 (combine (seq k (List.length l)) l))
  = list_sum (map h l).
Proof.
  induction l as [|x l IH]; intros k; simpl; [reflexivity|].
  now rewrite length_app, Hg, IH.
Qed.

Lemma length_block_chunks t i j b :
  List.length (block_chunks t i j b) = block_chunk_count b.
Proof.
  rewrite block_chunks_eq. unfold block_chunk_count.
  destruct (truthy_string (ContentBlock.text b)).
  { now rewrite length_map, slices_count_all. }
  destruct (truthy_string (ContentBlock.thinking b)).
  { now rewrite length_app, length_map, slices_count_all. }
  destruct (truthy_string (ContentBlock.data b)); [|reflexivity].
  now rewrite length_map, slices_count_all.
Qed.

Lemma length_choice_chunks t i ch :
  List.length (choice_chunks t i ch) = choice_chunk_count ch.
Proof.
  rewrite choice_chunks_eq, !length_app.
  rewrite choice_block_chunks_eq, choice_tool_chunks_eq,
    choice_content_chunks_eq.
  unfold choice_chunk_count.
  destruct (Choice.message ch) as [m|]; [|reflexivity].
  assert (Et : List.length
                 match Message.tool_calls m with
                 | Some tcs =>
                     flat_map
                       (fun kt => tool_call_chunks t i (fst kt) (snd kt))
                       (entries tcs)
                 | None => []
                 end
               = match Message.tool_calls m with
                 | Some tcs => 2 * List.length tcs
                 | None => 0
                 end).
  { destruct (Message.tool_calls m) as [tcs|]; [|reflexivity].
    unfold entries.
    rewrite (length_entries_from (tool_call_chunks t i) (fun _ => 2))
      by reflexivity.
    induction tcs as [|tc tcs IH]; simpl in *; [reflexivity|]. lia. }
  rewrite Et. clear Et.
  destruct (Message.content_blocks m) as [bs|].
  - unfold entries.
    rewrite (length_entries_from (block_chunks t i) block_chunk_count)
      by (intros; apply length_block_chunks).
    destruct (Message.content m) as [[s|l]|]; simpl; lia.
  - destruct (Message.content m) as [[s|l]|]; simpl;
      rewrite ?length_map, ?slices_count_all; lia.
Qed.

(** X9.  The output has one element per slice of every emitted field, one
    more per block emitted by its thinking, two per tool call and one per
    choice, and the sentinel: its length is the sum over the choices of
    [choice_chunk_count], plus one. *)
Theorem output_length (ANTHROPIC : string) (now : Z) (r : Response.t)
    (p : string) :
  List.length
    (OpenAIChatCompleteJSONToStreamResponseTransform ANTHROPIC now r p)
  = list_sum (map choice_chunk_count (Response.choices r)) + 1.
Proof.
  unfold OpenAIChatCompleteJSONToStreamResponseTransform.
  rewrite length_map, streamChunkArray_of_eq, length_app. unfold entries.
  rewrite (length_entries_from (choice_chunks _) choice_chunk_count)
    by (intros; apply length_choice_chunks).
  reflexivity.
Qed.

(** ** One more choice *)

Lemma combine_append {A B : Type} (a1 a2 : list A) (b1 b2 : list B) :
  List.length a1 = List.length b1 ->
  combine (a1 ++ a2) (b1 ++ b2) = combine a1 b1 ++ combine a2 b2.
Proof.
  revert b1. induction a1 as [|x a1 IH]; intros [|y b1] H; simpl in *;
    try discriminate; [reflexivity|].
  f_equal. apply IH. lia.
Qed.

Lemma entries_snoc {A : Type} (l : list A) (x : A) :
  entries (l ++ [x]) = entries l ++ [(List.length l, x)].
Proof.
  unfold entries. rewrite length_app. simpl.
  rewrite seq_app. simpl.
  rewrite combine_append by apply length_seq. reflexivity.
Qed.

Lemma streamChunkTemplate_with_choices (ANTHROPIC : string) (now : Z)
    (r : Response.t) (p : string) (l : list Choice.t) :
  streamChunkTemplate ANTHROPIC now (with_choices r l) p
  = streamChunkTemplate ANTHROPIC now r p.
Proof. reflexivity. Qed.

(** X10.  A choice added at the end of [choices] adds its chunks, numbered
    with its position, between the chunks of the choices before it and the
    sentinel; the chunks of the choices before it do not change. *)
Theorem one_more_choice (ANTHROPIC : string) (now : Z) (r : Response.t)
    (p : string) (l : list Choice.t) (ch : Choice.t) :
  streamChunkArray_of ANTHROPIC now (with_choices r (l ++ [ch])) p
  = removelast (streamChunkArray_of ANTHROPIC now (with_choices r l) p)
    ++ choice_chunks (streamChunkTemplate ANTHROPIC now r p) (List.length l) ch
    ++ [DONE].
Proof.
  rewrite !streamChunkArray_of_eq, !streamChunkTemplate_with_choices.
  simpl Response.choices. rewrite removelast_last, entries_snoc.
  rewrite flat_map_app. simpl. now rewrite app_nil_r, <- app_assoc.
Qed.

(** ** The counts of the usage object *)

Lemma get_completion_tokens (ANTHROPIC p : string) (u : Usage.t) :
  get "completion_tokens" (usage_object ANTHROPIC p u)
  = if truthy_number (Usage.completion_tokens u)
    then of_number (Usage.completion_tokens u) else Undefined.
Proof. usage_cases ANTHROPIC p u. Qed.

Lemma get_prompt_tokens (ANTHROPIC p : string) (u : Usage.t) :
  get "prompt_tokens" (usage_object ANTHROPIC p u)
  = if truthy_number (Usage.prompt_tokens u)
    then of_number (Usage.prompt_tokens u) else Undefined.
Proof. usage_cases ANTHROPIC p u. Qed.

Lemma get_num_search_queries (ANTHROPIC p : string) (u : Usage.t) :
  get "num_search_queries" (usage_object ANTHROPIC p u)
  = if truthy_number (Usage.num_search_queries u)
    then of_number (Usage.num_search_queries u) else Undefined.
Proof. usage_cases ANTHROPIC p u. Qed.

Lemma truthy_count_copied (n : option Z) (z : Z) :
  (if truthy_number n then of_number n else Undefined) = Number z
  <-> n = Some z /\ z <> 0%Z.
Proof.
  destruct n as [x|]; simpl.
  - destruct (Z.eqb_spec x 0) as [E|E]; simpl.
    + split; [discriminate|]. intros [[= <-] H]. contradiction.
    + split; [intros [= <-]; now split | now intros [[= <-] _]].
  - split; [discriminate | now intros [[=] _]].
Qed.

Lemma has_true_in_keys (k : string) (o : props) :
  has k o = true -> In k (keys o).
Proof.
  induction o as [|[k' v] o IH]; simpl; [discriminate|].
  destruct (String.eqb_spec k k') as [->|_]; auto.
Qed.

Lemma usage_object_keys (ANTHROPIC p : string) (u : Usage.t) :
  incl (keys (usage_object ANTHROPIC p u))
    ["completion_tokens"; "prompt_tokens"; "total_tokens";
     "cache_read_input_tokens"; "cache_creation_input_tokens";
     "num_search_queries"].
Proof.
  usage_cases ANTHROPIC p u; intros k Hk; simpl in *; intuition.
Qed.

(** X11.  On every chunk the usage object has [completion_tokens],
    [prompt_tokens] and [num_search_queries] with the value of the input
    exactly when that value is a non-zero number, and it has no property but
    these, [total_tokens] and the two cache counts: no other field of the
    usage of the response is passed on. *)
Theorem usage_counts_copied (ANTHROPIC : string) (now : Z) (r : Response.t)
    (p : string) (o : props) :
  In (Data o) (streamChunkArray_of ANTHROPIC now r p) ->
  exists usage,
    get "usage" o = Object usage
    /\ (forall z, get "completion_tokens" usage = Number z <->
                  Usage.completion_tokens (usage_or_empty r) = Some z
                  /\ z <> 0%Z)
    /\ (forall z, get "prompt_tokens" usage = Number z <->
                  Usage.prompt_tokens (usage_or_empty r) = Some z /\ z <> 0%Z)
    /\ (forall z, get "num_search_queries" usage = Number z <->
                  Usage.num_search_queries (usage_or_empty r) = Some z
                  /\ z <> 0%Z)
    /\ (forall k, has k usage = true ->
                  In k ["completion_tokens"; "prompt_tokens"; "total_tokens";
                        "cache_read_input_tokens";
                        "cache_creation_input_tokens"; "num_search_queries"]).
Proof.
  intros H. exists (usage_object ANTHROPIC p (usage_or_empty r)).
  split; [now apply output_usage with (now := now)|].
  rewrite get_completion_tokens, get_prompt_tokens, get_num_search_queries.
  split; [intros z; apply truthy_count_copied|].
  split; [intros z; apply truthy_count_copied|].
  split; [intros z; apply truthy_count_copied|].
  intros k Hk. apply (usage_object_keys ANTHROPIC p (usage_or_empty r)).
  now apply has_true_in_keys.
Qed.

Lemma usage_counts_copied_witness :
  exists usage,
    get "usage"
      (streamChunkTemplate "anthropic" 1700000000000%Z
         Sample.zero_prompt_response "openai"
       ++ [("choices",
            Array [obj [Field "index" (index_value 0);
                        Field "delta" (obj []);
                        Field "finish_reason" (Str "stop")]])])
    = Object usage
    /\ (forall z, get "completion_tokens" usage = Number z <->
                  Usage.completion_tokens
                    (usage_or_empty Sample.zero_prompt_response) = Some z
                  /\ z <> 0%Z)
    /\ (forall z, get "prompt_tokens" usage = Number z <->
                  Usage.prompt_tokens
                    (usage_or_empty Sample.zero_prompt_response) = Some z
                  /\ z <> 0%Z)
    /\ (forall z, get "num_search_queries" usage = Number z <->
                  Usage.num_search_queries
                    (usage_or_empty Sample.zero_prompt_response) = Some z
                  /\ z <> 0%Z)
    /\ (forall k, has k usage = true ->
                  In k ["completion_tokens"; "prompt_tokens"; "total_tokens";
                        "cache_read_input_tokens";
                        "cache_creation_input_tokens"; "num_search_queries"]).
Proof.
  apply (usage_counts_copied "anthropic" 1700000000000%Z
           Sample.zero_prompt_response "openai").
  apply (nth_error_In _ 0). vm_compute. reflexivity.
Defined.

(** ** The serialisation *)

Lemma serialize_Array (l : list value) :
  serialize (Array l)
  = Some ("[" ++ join "," (map serialize_element l) ++ "]")%string.
Proof.
  reflexivity.
Qed.

Lemma serialize_Object (o : props) :
  serialize (Object o)
  = Some ("{" ++ join "," (flat_map serialize_member o) ++ "}")%string.
Proof.
  cbn [serialize]. do 2 f_equal.
  assert (E : forall o' : props,
             (fix go (o : list (string * value)) : list string :=
                match o with
                | [] => []
                | (k, x) :: o' =>
                    match serialize x with
                    | Some t => (quote k ++ ":" ++ t)%string :: go o'
                    | None => go o'
                    end
                end) o'
             = flat_map serialize_member o').
  { induction o' as [|[k x] o' IH]; [reflexivity|].
    unfold serialize_member at 1. cbn [flat_map fst snd].
    destruct (serialize x); cbn [app]; now rewrite IH. }
  now rewrite E.
Qed.

Lemma contains_newline_app (a b : string) :
  contains_newline (a ++ b) = contains_newline a || contains_newline b.
Proof.
  induction a as [|c a IH]; simpl; [reflexivity|].
  now rewrite IH, orb_assoc.
Qed.

Lemma quote_unit_no_newline (c : ascii) :
  contains_newline (quote_unit c) = false.
Proof. destruct c as [[] [] [] [] [] [] [] []]; reflexivity. Qed.

Lemma quote_no_newline (s : string) : contains_newline (quote s) = false.
Proof.
  unfold quote. rewrite !contains_newline_app. simpl.
  induction s as [|c s IH]; simpl; [reflexivity|].
  rewrite contains_newline_app, quote_unit_no_newline. exact IH.
Qed.

Lemma uint_no_newline (d : Decimal.uint) :
  contains_newline (NilEmpty.string_of_uint d) = false.
Proof. induction d; simpl; auto. Qed.

Lemma number_no_newline (z : Z) :
  contains_newline (number_to_string z) = false.
Proof.
  unfold number_to_string, NilZero.string_of_int, NilZero.string_of_uint.
  destruct (Z.to_int z) as [d|d]; destruct d; simpl;
    auto using uint_no_newline.
Qed.

Lemma int_no_newline (i : Decimal.int) :
  contains_newline (NilZero.string_of_int i) = false.
Proof.
  unfold NilZero.string_of_int, NilZero.string_of_uint.
  destruct i as [d|d]; destruct d; simpl; auto using uint_no_newline.
Qed.

Lemma real_no_newline (d : Decimal.decimal) :
  contains_newline (real_to_string d) = false.
Proof.
  destruct d as [i f|i f e]; unfold real_to_string.
  - rewrite !contains_newline_app, int_no_newline, uint_no_newline.
    reflexivity.
  - rewrite !contains_newline_app, int_no_newline.
    assert (Hf : contains_newline
                   match f with
                   | Decimal.Nil => EmptyString
                   | _ => ("." ++ NilEmpty.string_of_uint f)%string
                   end = false).
    { destruct f; try reflexivity;
        rewrite contains_newline_app, uint_no_newline; reflexivity. }
    rewrite Hf. clear Hf.
    destruct e as [u|u]; rewrite contains_newline_app;
      unfold NilZero.string_of_uint; destruct u; simpl;
      auto using uint_no_newline.
Qed.

Lemma join_no_newline (l : list string) :
  Forall (fun t => contains_newline t = false) l ->
  contains_newline (join "," l) = false.
Proof.
  induction 1 as [|t l Ht Hl IH]; [reflexivity|].
  destruct l as [|t' l]; [exact Ht|].
  change (join "," (t :: t' :: l))
    with (t ++ "," ++ join "," (t' :: l))%string.
  rewrite !contains_newline_app, Ht, IH. reflexivity.
Qed.

Lemma serialize_no_newline (v : value) :
  forall t, serialize v = Some t -> contains_newline t = false.
Proof.
  induction v as [| |b|z|d|s|l IH|o IH] using value_induction; intros t H.
  - discriminate.
  - now injection H as <-.
  - destruct b; now injection H as <-.
  - injection H as <-. apply number_no_newline.
  - injection H as <-. apply real_no_newline.
  - injection H as <-. apply quote_no_newline.
  - rewrite serialize_Array in H.
    replace t with ("[" ++ join "," (map serialize_element l) ++ "]")%string
      by congruence.
    rewrite !contains_newline_app, join_no_newline; [reflexivity|].
    apply Forall_map. eapply Forall_impl; [|exact IH].
    intros x Hx. unfold serialize_element.
    destruct (serialize x) as [t'|] eqn:E; [now apply Hx | reflexivity].
  - rewrite serialize_Object in H.
    replace t with ("{" ++ join "," (flat_map serialize_member o) ++ "}")%string
      by congruence.
    rewrite !contains_newline_app, join_no_newline; [reflexivity|].
    apply Forall_flat_map. eapply Forall_impl; [|exact IH].
    intros [k x] Hx. unfold serialize_member. cbn [fst snd] in *.
    destruct (serialize x) as [t'|] eqn:E; [|apply Forall_nil].
    apply Forall_cons; [|apply Forall_nil].
    rewrite !contains_newline_app, quote_no_newline, (Hx t' eq_refl).
    reflexivity.
Qed.

(** X12.  Every element of the output is [data: ], a payload and two line
    feeds, and the payload has no line feed in it, whatever line feeds the
    strings of the response hold: [JSON.stringify] writes them escaped. *)
Theorem event_framing (ANTHROPIC : string) (now : Z) (r : Response.t)
    (p : string) (e : string) :
  In e (OpenAIChatCompleteJSONToStreamResponseTransform ANTHROPIC now r p) ->
  exists payload,
    e = ("data: " ++ payload ++ newline ++ newline)%string
    /\ contains_newline payload = false.
Proof.
  unfold OpenAIChatCompleteJSONToStreamResponseTransform. intros H.
  apply in_map_iff in H. destruct H as ([o|] & <- & _).
  - exists (JSON_stringify (Object o)). split; [reflexivity|].
    unfold JSON_stringify.
    destruct (serialize (Object o)) as [t|] eqn:E; [|reflexivity].
    now apply (serialize_no_newline (Object o)).
  - exists "[DONE]". split; reflexivity.
Qed.

Lemma event_framing_witness :
  exists payload,
    nth 0
      (OpenAIChatCompleteJSONToStreamResponseTransform "anthropic"
         1700000000000%Z Multiline.response "openai") EmptyString
    = ("data: " ++ payload ++ newline ++ newline)%string
    /\ contains_newline payload = false.
Proof.
  apply (event_framing "anthropic" 1700000000000%Z Multiline.response "openai").
  apply nth_In. vm_compute. lia.
Defined.

Lemma serialize_member_set (k : string) (v1 v2 : value) (o : props) :
  serialize v1 = serialize v2 ->
  flat_map serialize_member (set k v1 o)
  = flat_map serialize_member (set k v2 o).
Proof.
  intros H. induction o as [|[k' v'] o IH]; simpl.
  - unfold serialize_member. simpl. now rewrite H.
  - destruct (String.eqb k k'); simpl.
    + unfold serialize_member at 1 3. simpl. now rewrite H.
    + now rewrite IH.
Qed.

Lemma render_chunk_of (t : props) (c1 c2 : list member) :
  serialize (obj c1) = serialize (obj c2) ->
  render (chunk_of t c1) = render (chunk_of t c2).
Proof.
  intros H. unfold render, chunk_of, JSON_stringify, object_literal.
  cbn [fold_left add_member]. rewrite !serialize_Object.
  rewrite (serialize_member_set "choices" (Array [obj c1]) (Array [obj c2]));
    [reflexivity|].
  rewrite !serialize_Array. cbn [map]. unfold serialize_element.
  now rewrite H.
Qed.

(** X13.  A property whose value is [undefined] is not written.  The finish
    chunk of a choice without [finish_reason] is the string of a choice
    entry with [index] and [delta] only, and the trailing chunk of a
    thinking block without signature is the string of a chunk whose inner
    delta is [{}]. *)
Theorem undefined_is_not_written (t : props) (i j : nat) (ch : Choice.t) :
  (Choice.finish_reason ch = None ->
   render (finish_chunk t i ch)
   = render (chunk_of t [Field "index" (index_value i);
                         Field "delta" (obj [])]))
  /\ render (signature_chunk t i j None)
     = render
         (chunk_of t [
            Field "index" (index_value i);
            Field "delta" (obj [
              Field "role" (Str "assistant");
              Field "content_blocks"
                (Array [obj [Field "index" (index_value j);
                             Field "delta" (obj [])]])])]).
Proof.
  split.
  - intros H. unfold finish_chunk. rewrite H. now apply render_chunk_of.
  - unfold signature_chunk. now apply render_chunk_of.
Qed.

Lemma undefined_is_not_written_witness :
  let t := streamChunkTemplate "anthropic" 1700000000000%Z Multiline.response
             "openai" in
  render (finish_chunk t 0 Multiline.choice)
  = render (chunk_of t [Field "index" (index_value 0); Field "delta" (obj [])]).
Proof.
  intros t.
  apply (proj1 (undefined_is_not_written t 0 0 Multiline.choice)).
  reflexivity.
Defined.

(** ** The table of parameters *)

(** X14.  In [OpenAIChatCompleteConfig] every parameter is sent under its
    own name, no parameter is listed twice, [model] is the only required
    one, a lower bound is never above the upper bound and every numeric
    default lies within the bounds of its entry. *)
Theorem config_well_formed :
  forallb entry_ok OpenAIChatCompleteConfig = true
  /\ NoDup (map fst OpenAIChatCompleteConfig)
  /\ map fst
       (filter (fun kc => match ParameterConfig.required (snd kc) with
                          | Some true => true
                          | _ => false
                          end) OpenAIChatCompleteConfig)
     = ["model"].
Proof.
  split; [reflexivity|]. split; [|reflexivity].
  apply (NoDup_count_occ' string_dec). intros k Hk.
  simpl in Hk. repeat (destruct Hk as [<-|Hk]; [reflexivity|]). contradiction.
Qed.

(** ** Full slices *)

Lemma slice_at_full (s : string) (k : nat) (w : string) :
  slice_at s k = Some w -> slice_at s (S k) <> None ->
  String.length w = 500.
Proof.
  unfold slice_at. intros Hk Hn.
  destruct (Nat.ltb_spec (500 * k) (String.length s)); [|discriminate].
  destruct (Nat.ltb_spec (500 * S k) (String.length s)); [|contradiction].
  injection Hk as <-. rewrite length_substring. lia.
Qed.

(** X15.  Only the last slice of a field is short: a slice chunk that is
    followed by another slice chunk of the same field carries exactly 500
    units, for the text of a content block and for the flat content. *)
Theorem slices_full_but_last (ANTHROPIC : string) (now : Z)
    (r : Response.t) (p : string) (i : nat) (ch : Choice.t) (m : Message.t)
    (k : nat) (w : string) :
  nth_error (Response.choices r) i = Some ch ->
  Choice.message ch = Some m ->
  (forall bs j b,
     Message.content_blocks m = Some bs -> nth_error bs j = Some b ->
     let ws :=
       payloads (block_payload "text")
         (filter (of_block i j) (streamChunkArray_of ANTHROPIC now r p)) in
     nth_error ws k = Some w -> nth_error ws (S k) <> None ->
     String.length w = 500)
  /\ (forall s,
        Message.content m = Some (Message.Text s) ->
        Message.content_blocks m = None ->
        let ws :=
          payloads content_payload
            (filter (of_choice i) (streamChunkArray_of ANTHROPIC now r p)) in
        nth_error ws k = Some w -> nth_error ws (S k) <> None ->
        String.length w = 500).
Proof.
  intros Hch Hm. split.
  - intros bs j b Hbs Hb ws. subst ws.
    rewrite (filter_of_block _ _ _ _ i ch m bs j b Hch Hm Hbs Hb).
    rewrite text_payloads_block.
    destruct (truthy_string (ContentBlock.text b)); [|now destruct k].
    rewrite !nth_error_slices_all. apply slice_at_full.
  - intros s Hs Hbs ws. subst ws.
    rewrite (filter_of_choice _ _ _ _ i ch Hch), content_payloads_choice.
    rewrite Hm, Hs, Hbs, !nth_error_slices_all. apply slice_at_full.
Qed.

Lemma slices_full_but_last_witness :
  String.length (substring 500 500 Sample.long_text) = 500.
Proof.
  pose proof (slices_full_but_last "anthropic" 1700000000000%Z
                Sample.flat_response "openai" 0 Sample.flat_choice _ 1
                (substring 500 500 Sample.long_text) eq_refl eq_refl)
    as [_ H].
  apply (H _ eq_refl eq_refl).
  - vm_compute. reflexivity.
  - vm_compute. discriminate.
Defined.

(** ** The cache counts, in the object and in the string *)

Lemma serialize_None (v : value) : serialize v = None <-> v = Undefined.
Proof.
  destruct v as [| |[]| | | | |]; simpl; split; intros H;
    try discriminate; reflexivity.
Qed.

Lemma serialize_written_props (o : props) :
  flat_map serialize_member (written_props o) = flat_map serialize_member o.
Proof.
  induction o as [|[k v] o IH]; [reflexivity|].
  unfold written_props in *. cbn [filter flat_map snd].
  destruct v; cbn [is_undefined negb flat_map]; rewrite IH; reflexivity.
Qed.

Lemma serialize_member_replace (k : string) (v : value) (o : props) :
  has k o = true -> serialize (get k o) = serialize v ->
  flat_map serialize_member (set k v o) = flat_map serialize_member o.
Proof.
  induction o as [|[k' v'] o IH]; simpl; [discriminate|].
  destruct (String.eqb k k'); simpl; intros Hh Hs.
  - unfold serialize_member at 1 3. simpl. now rewrite Hs.
  - now rewrite IH.
Qed.

Lemma render_written_usage (o usage : props) :
  has "usage" o = true -> get "usage" o = Object usage ->
  render (Data (set "usage" (Object (written_props usage)) o))
  = render (Data o).
Proof.
  intros Hh Hg. unfold render, JSON_stringify.
  rewrite !serialize_Object, serialize_member_replace; [reflexivity|exact Hh|].
  rewrite Hg, !serialize_Object. now rewrite serialize_written_props.
Qed.

Lemma has_existsb (k : string) (o : props) :
  has k o = existsb (fun kv => String.eqb k (fst kv)) o.
Proof.
  induction o as [|[k' v] o IH]; simpl; [reflexivity|].
  now destruct (String.eqb k k').
Qed.

Lemma has_written_props (k : string) (o : props) :
  has k (written_props o)
  = existsb (fun kv => String.eqb k (fst kv) && negb (is_undefined (snd kv))) o.
Proof.
  rewrite has_existsb. unfold written_props.
  induction o as [|[k' v] o IH]; simpl; [reflexivity|].
  destruct (is_undefined v); simpl; rewrite IH.
  - now rewrite andb_false_r.
  - now rewrite andb_true_r.
Qed.

Lemma written_cache_read (ANTHROPIC p : string) (u : Usage.t) :
  has "cache_read_input_tokens" (written_props (usage_object ANTHROPIC p u))
  = shouldSendCacheUsage ANTHROPIC p (Usage.cache_read_input_tokens u)
      (Usage.cache_creation_input_tokens u)
    && negb (is_undefined (Usage.cache_read_input_tokens u)).
Proof.
  rewrite has_written_props. usage_cases ANTHROPIC p u;
    cbn; rewrite ?orb_false_r; reflexivity.
Qed.

Lemma written_cache_creation (ANTHROPIC p : string) (u : Usage.t) :
  has "cache_creation_input_tokens"
    (written_props (usage_object ANTHROPIC p u))
  = shouldSendCacheUsage ANTHROPIC p (Usage.cache_read_input_tokens u)
      (Usage.cache_creation_input_tokens u)
    && negb (is_undefined (Usage.cache_creation_input_tokens u)).
Proof.
  rewrite has_written_props. usage_cases ANTHROPIC p u;
    cbn; rewrite ?orb_false_r; reflexivity.
Qed.

Lemma is_undefined_false (v : value) :
  negb (is_undefined v) = true <-> v <> Undefined.
Proof. destruct v; simpl; split; congruence. Qed.

Lemma shouldSendCacheUsage_true (ANTHROPIC p : string) (cr cc : value) :
  shouldSendCacheUsage ANTHROPIC p cr cc = true <->
  p = ANTHROPIC
  /\ (Number_isInteger cr = true \/ Number_isInteger cc = true).
Proof.
  unfold shouldSendCacheUsage.
  now rewrite andb_true_iff, orb_true_iff, String.eqb_eq.
Qed.

Lemma output_has_usage (ANTHROPIC : string) (now : Z) (r : Response.t)
    (p : string) (o : props) :
  In (Data o) (streamChunkArray_of ANTHROPIC now r p) ->
  has "usage" o = true.
Proof.
  intros H. apply output_from_template in H.
  destruct H as [H|(choice & H)]; [discriminate|]. injection H as ->.
  now rewrite streamChunkTemplate_eq.
Qed.

(** C4 (amended).  On every chunk the usage object has the two properties
    [cache_read_input_tokens] and [cache_creation_input_tokens], holding the
    two counts of the input as they are, if and only if the provider is
    [ANTHROPIC] and [Number.isInteger] holds of one of the two counts ([0] is
    an integer; [1.5], [null] and an absent count are not).  The string of
    the event is that of the chunk with the written properties of the usage
    object only, and among those each of the two properties is found if and
    only if, besides, its own count is not [undefined]. *)
Theorem cache_usage_presence (ANTHROPIC : string) (now : Z)
    (r : Response.t) (p : string) (o : props) :
  In (Data o) (streamChunkArray_of ANTHROPIC now r p) ->
  exists usage,
    get "usage" o = Object usage
    /\ (has "cache_read_input_tokens" usage = true <->
        p = ANTHROPIC
        /\ (Number_isInteger
              (Usage.cache_read_input_tokens (usage_or_empty r)) = true
            \/ Number_isInteger
                 (Usage.cache_creation_input_tokens (usage_or_empty r)) = true))
    /\ (has "cache_creation_input_tokens" usage = true <->
        has "cache_read_input_tokens" usage = true)
    /\ (has "cache_read_input_tokens" usage = true ->
        get "cache_read_input_tokens" usage
        = Usage.cache_read_input_tokens (usage_or_empty r)
        /\ get "cache_creation_input_tokens" usage
           = Usage.cache_creation_input_tokens (usage_or_empty r))
    /\ render (Data o)
       = render (Data (set "usage" (Object (written_props usage)) o))
    /\ (has "cache_read_input_tokens" (written_props usage) = true <->
        (p = ANTHROPIC
         /\ (Number_isInteger
               (Usage.cache_read_input_tokens (usage_or_empty r)) = true
             \/ Number_isInteger
                  (Usage.cache_creation_input_tokens (usage_or_empty r))
                = true))
        /\ Usage.cache_read_input_tokens (usage_or_empty r) <> Undefined)
    /\ (has "cache_creation_input_tokens" (written_props usage) = true <->
        (p = ANTHROPIC
         /\ (Number_isInteger
               (Usage.cache_read_input_tokens (usage_or_empty r)) = true
             \/ Number_isInteger
                  (Usage.cache_creation_input_tokens (usage_or_empty r))
                = true))
        /\ Usage.cache_creation_input_tokens (usage_or_empty r) <> Undefined).
Proof.
  intros H. exists (usage_object ANTHROPIC p (usage_or_empty r)).
  pose proof (output_usage ANTHROPIC now r p o H) as Hu.
  split; [exact Hu|].
  rewrite has_cache_read, has_cache_creation, get_cache_read, get_cache_creation.
  rewrite written_cache_read, written_cache_creation.
  split; [apply shouldSendCacheUsage_true|].
  split; [reflexivity|]. split; [now intros ->|].
  split.
  { symmetry. apply render_written_usage; [|exact Hu].
    now apply output_has_usage with (ANTHROPIC := ANTHROPIC) (now := now)
                                    (r := r) (p := p). }
  split; rewrite andb_true_iff, shouldSendCacheUsage_true, is_undefined_false;
    reflexivity.
Qed.

Lemma cache_usage_presence_witness :
  let r := Sample.response in
  let o :=
    streamChunkTemplate "anthropic" 1700000000000%Z r "anthropic"
    ++ [("choices",
         Array [obj [Field "index" (index_value 1);
                     Field "delta" (obj []);
                     Field "finish_reason" (Str "stop")]])] in
  exists usage,
    get "usage" o = Object usage
    /\ (has "cache_read_input_tokens" usage = true <->
        "anthropic" = "anthropic"
        /\ (Number_isInteger
              (Usage.cache_read_input_tokens (usage_or_empty r)) = true
            \/ Number_isInteger
                 (Usage.cache_creation_input_tokens (usage_or_empty r)) = true))
    /\ (has "cache_creation_input_tokens" usage = true <->
        has "cache_read_input_tokens" usage = true)
    /\ (has "cache_read_input_tokens" usage = true ->
        get "cache_read_input_tokens" usage
        = Usage.cache_read_input_tokens (usage_or_empty r)
        /\ get "cache_creation_input_tokens" usage
           = Usage.cache_creation_input_tokens (usage_or_empty r))
    /\ render (Data o)
       = render (Data (set "usage" (Object (written_props usage)) o))
    /\ (has "cache_read_input_tokens" (written_props usage) = true <->
        ("anthropic" = "anthropic"
         /\ (Number_isInteger
               (Usage.cache_read_input_tokens (usage_or_empty r)) = true
             \/ Number_isInteger
                  (Usage.cache_creation_input_tokens (usage_or_empty r))
                = true))
        /\ Usage.cache_read_input_tokens (usage_or_empty r) <> Undefined)
    /\ (has "cache_creation_input_tokens" (written_props usage) = true <->
        ("anthropic" = "anthropic"
         /\ (Number_isInteger
               (Usage.cache_read_input_tokens (usage_or_empty r)) = true
             \/ Number_isInteger
                  (Usage.cache_creation_input_tokens (usage_or_empty r))
                = true))
        /\ Usage.cache_creation_input_tokens (usage_or_empty r) <> Undefined).
Proof.
  intros r o.
  apply (cache_usage_presence "anthropic" 1700000000000%Z r "anthropic").
  apply (nth_error_In _ 12). vm_compute. reflexivity.
Defined.

(** C4, as stated, fails on the events returned: for the provider
    [ANTHROPIC], with [cache_read_input_tokens = 0] (an integer) and no
    [cache_creation_input_tokens], every event has
    [cache_read_input_tokens] and none has [cache_creation_input_tokens]:
    the property is in the usage object with the value [undefined], which
    [JSON.stringify] does not write. *)
Lemma undefined_cache_count_is_not_written :
  let r := Sample.response in
  let out := OpenAIChatCompleteJSONToStreamResponseTransform "anthropic"
               1700000000000%Z r "anthropic" in
  Number_isInteger (Usage.cache_read_input_tokens (usage_or_empty r)) = true
  /\ Usage.cache_creation_input_tokens (usage_or_empty r) = Undefined
  /\ forallb (occurs "cache_read_input_tokens") (removelast out) = true
  /\ existsb (occurs "cache_creation_input_tokens") out = false.
Proof. vm_compute. repeat split. Qed.

(** The integer test on counts that are there and are not integers: [1.5]
    alone and [null] alone send neither property; [null] beside an integer
    is sent and written as [null]; a lone [cache_creation_input_tokens] is
    written without [cache_read_input_tokens]. *)
Example cache_counts_that_are_not_integers :
  let events r :=
    OpenAIChatCompleteJSONToStreamResponseTransform "anthropic"
      1700000000000%Z r "anthropic" in
  existsb (occurs "cache_") (events Counts.fraction) = false
  /\ existsb (occurs "cache_") (events Counts.null_only) = false
  /\ forallb (occurs ("cache_read_input_tokens" ++ dquote ++ ":5,"
                      ++ dquote ++ "cache_creation_input_tokens" ++ dquote
                      ++ ":null"))
       (removelast (events Counts.integer_and_null)) = true
  /\ forallb (occurs ("cache_creation_input_tokens" ++ dquote ++ ":5"))
       (removelast (events Counts.creation_only)) = true
  /\ existsb (occurs "cache_read_input_tokens") (events Counts.creation_only)
     = false.
Proof. vm_compute. repeat split. Qed.

(** The sum of two counts is the sum of two doubles:
    [9007199254740992 + 1] is [9007199254740992]. *)
Example total_tokens_is_a_double :
  get "total_tokens"
    (usage_object "anthropic" "openai" (usage_or_empty Counts.huge))
  = Number 9007199254740992.
Proof. vm_compute. reflexivity. Qed.
